(** * Wishlist application: a shallow embedding of [app.py]

    The application keeps a wish list in one JSON file.  Every route loads
    the whole file, possibly changes the loaded list, and writes the whole
    list back.  This development embeds the helpers [load_data] and
    [save_data] and every route handler of [app.py] as functions over an
    explicit file system, and proves the properties of the specification
    about them.

    Conventions of the embedding:
    - a Python [str] is a [string]; its characters are the code points
      below 256;
    - a JSON object (a Python [dict] with string keys) is a
      [gmap string json];
    - a Python [int] is a [Z]; JSON floats are not modelled;
    - the file system is a finite map from paths to file contents;
    - an exception is a [Raise] outcome that leaves the file system as it
      was when the exception was raised;
    - [json.dump] and [json.load] are library code: they are an interface
      ([JsonCodec]) with the one law the application relies on. *)

From Stdlib Require Import Ascii.
From stdpp Require Import base option list gmap strings fin_maps.

Local Open Scope string_scope.
Local Open Scope list_scope.
Local Open Scope Z_scope.

(** ** Data model *)

(** JSON values, as [json.load] builds them. *)
#[local] Set Warnings "-register-all".
Inductive json : Type :=
  | JNull
  | JBool (b : bool)
  | JInt (n : Z)
  | JStr (s : string)
  | JArr (l : list json)
  | JObj (m : list (string * json)).

(** A stored item is a JSON object: a dictionary with string keys.  The
    keys an item has are not fixed by a type: a hand-edited file may hold
    items that lack any of them. *)
Abbreviation item := (gmap string json).

(** The exceptions the handlers can raise. *)
Inductive exn : Type :=
  | JSONDecodeError
  | FileNotFoundError (path : string)
  | BadRequestKeyError (key : string)
  | IndexError.

Inductive outcome (A : Type) : Type :=
  | Ok (a : A)
  | Raise (e : exn).
Arguments Ok {A} a.
Arguments Raise {A} e.

(** ** The JSON library

    [text] is what a file holds.  [json_load] fails on text that is not
    the serialisation of a list of objects.  (The application never
    inspects a document of another shape; such files are outside the data
    model.) *)
Class JsonCodec : Type := {
  text : Type;
  json_dump : list item -> text;
  json_load : text -> option (list item);
  json_load_dump : forall d : list item, json_load (json_dump d) = Some d
}.

(** ** Python primitives used by the handlers *)

(** [str.isspace] on one character, for code points below 256. *)
Definition py_isspace (c : ascii) : bool :=
  let n := nat_of_ascii c in
  (Nat.leb 9 n && Nat.leb n 13) || (Nat.leb 28 n && Nat.leb n 32)
  || Nat.eqb n 133 || Nat.eqb n 160.

Fixpoint py_lstrip (s : string) : string :=
  match s with
  | EmptyString => EmptyString
  | String c s' => if py_isspace c then py_lstrip s' else s
  end.

Fixpoint py_rstrip (s : string) : string :=
  match s with
  | EmptyString => EmptyString
  | String c s' =>
      match py_rstrip s' with
      | EmptyString => if py_isspace c then EmptyString else String c EmptyString
      | r => String c r
      end
  end.

(** [s.strip()] *)
Definition py_strip (s : string) : string := py_rstrip (py_lstrip s).

(** [s or None], as a JSON value: the empty string is falsy. *)
Definition str_or_None (s : string) : json :=
  match s with
  | EmptyString => JNull
  | _ => JStr s
  end.

(** The position a Python list index denotes: negative indices count from
    the end; [None] when the index is out of range. *)
Definition py_index {A : Type} (i : Z) (l : list A) : option nat :=
  let len := Z.of_nat (length l) in
  let j := if i <? 0 then i + len else i in
  if (0 <=? j) && (j <? len) then Some (Z.to_nat j) else None.

(** [l.pop(i)]: the list without the element at [i]. *)
Definition list_pop {A : Type} (i : Z) (l : list A) : outcome (list A) :=
  match py_index i l with
  | Some n => Ok (delete n l)
  | None => Raise IndexError
  end.

(** [l[i][k] = v]: [l[i]] is the dictionary stored in the list, not a copy
    of it, so the assignment changes the list's element in place. *)
Definition list_item_setitem (i : Z) (k : string) (v : json) (l : list item)
  : outcome (list item) :=
  match py_index i l with
  | Some n => Ok (alter (fun it : item => <[k := v]> it) n l)
  | None => Raise IndexError
  end.

(** [d.get(k, default)] *)
Definition dict_get (d : item) (k : string) (default : json) : json :=
  match d !! k with
  | Some v => v
  | None => default
  end.

(** ** Requests and responses *)

Inductive http_method : Type := GET | HEAD | POST.

Definition is_POST (m : http_method) : bool :=
  match m with POST => true | _ => false end.

Record request : Type := {
  method : http_method;
  form : gmap string string
}.

(** One entry of the list handed to a template. *)
Record view_item : Type := {
  v_index : Z;
  v_name : json;
  v_brand : json;
  v_link : json;
  v_notes : json;
  v_image : json;
  v_purchased : json
}.

Inductive response : Type :=
  | redirect (location : string)
  | render_template (template : string) (items : list view_item).

(** [url_for], for the endpoints the routes of [app.py] declare. *)
Definition url_for (endpoint : string) : string :=
  if String.eqb endpoint "wishlist" then "/"
  else if String.eqb endpoint "public_view" then "/public"
  else if String.eqb endpoint "wishlist_page" then "/wishlist"
  else if String.eqb endpoint "add_page" then "/add"
  else "".

(** ** The application *)

Section App.
Context `{codec : JsonCodec}.

(** The file system: the files that exist, with their contents. *)
Local Abbreviation fs := (gmap string text).

(** Computations that read and write files and may raise. *)
Definition M (A : Type) : Type := fs -> outcome A * fs.

Definition ret {A : Type} (a : A) : M A := fun st => (Ok a, st).

Definition bind {A B : Type} (m : M A) (k : A -> M B) : M B :=
  fun st =>
    match m st with
    | (Ok a, st') => k a st'
    | (Raise e, st') => (Raise e, st')
    end.

Definition raise {A : Type} (e : exn) : M A := fun st => (Raise e, st).

Definition lift {A : Type} (o : outcome A) : M A := fun st => (o, st).

Notation "'do' x <- m ; k" := (bind m (fun x => k))
  (at level 10, x name, m at level 100, k at level 200,
   format "'[v' 'do'  x  <-  m ; '/' k ']'").

(** [os.path.exists(path)] *)
Definition os_path_exists (path : string) : M bool :=
  fun st => (Ok (bool_decide (is_Some (st !! path))), st).

(** [with open(path) as f: return json.load(f)] *)
Definition open_json_load (path : string) : M (list item) :=
  fun st =>
    match st !! path with
    | None => (Raise (FileNotFoundError path), st)
    | Some t =>
        match json_load t with
        | Some d => (Ok d, st)
        | None => (Raise JSONDecodeError, st)
        end
    end.

(** [with open(path, "w") as f: json.dump(data, f)]: mode ["w"] creates the
    file or truncates it, so the file holds the new text only. *)
Definition open_w_json_dump (path : string) (data : list item) : M unit :=
  fun st => (Ok tt, <[path := json_dump data]> st).

Definition FILE_PATH : string := "wishlist_data.json".

Definition load_data : M (list item) :=
  do b <- os_path_exists FILE_PATH;
  if b then open_json_load FILE_PATH else ret [].

Definition save_data (data : list item) : M unit :=
  open_w_json_dump FILE_PATH data.

(** [request.form[key]] *)
Definition form_getitem (req : request) (key : string) : M string :=
  match form req !! key with
  | Some v => ret v
  | None => raise (BadRequestKeyError key)
  end.

(** [request.form.get(key, default)] *)
Definition form_get (req : request) (key default : string) : string :=
  match form req !! key with
  | Some v => v
  | None => default
  end.

(** The dictionary the POST branch of [wishlist] appends. *)
Definition new_item (name link notes : string) (image : json) (now : string)
  : item :=
  <["name" := JStr name]> (<["link" := JStr link]> (<["notes" := JStr notes]>
  (<["image" := image]> (<["purchased" := JBool false]>
  (<["created_at" := JStr now]> empty))))).

(** The projection of the stored list that both list templates receive
    (the two loops over [enumerate(data)]). *)
Definition view_of (idx : nat) (it : item) : view_item :=
  {| v_index := Z.of_nat idx;
     v_name := dict_get it "name" (JStr "-");
     v_brand := dict_get it "brand" (JStr "");
     v_link := dict_get it "link" (JStr "");
     v_notes := dict_get it "notes" (JStr "");
     v_image := dict_get it "image" JNull;
     v_purchased := dict_get it "purchased" (JBool false) |}.

(** Route [/], methods GET and POST.  [now] is the value of
    [datetime.now().isoformat()] during the request. *)
Definition wishlist (now : string) (req : request) : M response :=
  do data <- load_data;
  if is_POST (method req) then
    do name <- form_getitem req "name";
    do link <- form_getitem req "link";
    do notes <- form_getitem req "notes";
    let image_url := py_strip (form_get req "image_url" "") in
    let image := str_or_None image_url in
    let data := data ++ [new_item name link notes image now] in
    do _ <- save_data data;
    ret (redirect (url_for "wishlist"))
  else
    let items := imap view_of data in
    ret (render_template "wishlist.html" items).

(** Route [/delete/<int:index>]. *)
Definition delete_item (index : Z) : M response :=
  do data <- load_data;
  do _ <- (if (0 <=? index) && (index <? Z.of_nat (length data)) then
             do data <- lift (list_pop index data);
             save_data data
           else ret tt);
  ret (redirect (url_for "wishlist")).

(** Routes [/wishlist] and [/add]. *)
Definition wishlist_page : M response := ret (redirect (url_for "wishlist")).
Definition add_page : M response := ret (redirect (url_for "wishlist")).

(** Route [/public]. *)
Definition public_view : M response :=
  do data <- load_data;
  let items := imap view_of data in
  ret (render_template "public_list.html" items).

(** Route [/reserve/<int:index>]. *)
Definition reserve_item (index : Z) : M response :=
  do data <- load_data;
  do _ <- (if (0 <=? index) && (index <? Z.of_nat (length data)) then
             do data <- lift (list_item_setitem index "purchased" (JBool true) data);
             save_data data
           else ret tt);
  ret (redirect (url_for "public_view")).

(** Route [/unreserve/<int:index>]. *)
Definition unreserve_item (index : Z) : M response :=
  do data <- load_data;
  do _ <- (if (0 <=? index) && (index <? Z.of_nat (length data)) then
             do data <- lift (list_item_setitem index "purchased" (JBool false) data);
             save_data data
           else ret tt);
  ret (redirect (url_for "public_view")).

(** ** Vocabulary of the specification *)

(** The store holds [data]: a load returns it. *)
Definition holds (st : fs) (data : list item) : Prop :=
  load_data st = (Ok data, st).

(** The guard [0 <= index < len(data)] of the index routes. *)
Definition in_range (index : Z) (data : list item) : Prop :=
  0 <= index < Z.of_nat (length data).

(** The list after [data[n]['purchased'] = b]. *)
Definition with_purchased (b : bool) (n : nat) (data : list item) : list item :=
  alter (fun it : item => <["purchased" := JBool b]> it) n data.

(** The purchased flag of the item at position [n]. *)
Definition purchased_at (n : nat) (data : list item) : option json :=
  match data !! n with
  | Some it => it !! "purchased"
  | None => None
  end.

(** The form [{name: "Book", link: "http://x", notes: "", image_url: ""}]. *)
Definition book_request : request :=
  {| method := POST;
     form := <["name" := "Book"]> (<["link" := "http://x"]>
             (<["notes" := ""]> (<["image_url" := ""]> empty))) |}.

(** The item the example expects in the store. *)
Definition book_item (purchased : bool) (now : string) : item :=
  list_to_map [("name", JStr "Book"); ("link", JStr "http://x");
               ("notes", JStr ""); ("image", JNull);
               ("purchased", JBool purchased); ("created_at", JStr now)].

(** [data'] differs from [data] at most in the [purchased] entry of the
    item at position [n]. *)
Definition only_purchased_differs (n : nat) (data data' : list item) : Prop :=
  length data' = length data /\
  (forall j : nat, j <> n -> data' !! j = data !! j) /\
  (exists it it' : item,
     data !! n = Some it /\ data' !! n = Some it' /\
     forall k : string, k <> "purchased" -> it' !! k = it !! k).

(** The items of a list with their [purchased] entries erased. *)
Definition erase_purchased (data : list item) : list item :=
  delete "purchased" <$> data.

(** A request to one of the routes. *)
Inductive call : Type :=
  | CallWishlist (now : string) (req : request)
  | CallDeleteItem (index : Z)
  | CallWishlistPage
  | CallAddPage
  | CallPublicView
  | CallReserveItem (index : Z)
  | CallUnreserveItem (index : Z).

(** The handler the routing table of [app.py] gives each request. *)
Definition dispatch (c : call) : M response :=
  match c with
  | CallWishlist now req => wishlist now req
  | CallDeleteItem index => delete_item index
  | CallWishlistPage => wishlist_page
  | CallAddPage => add_page
  | CallPublicView => public_view
  | CallReserveItem index => reserve_item index
  | CallUnreserveItem index => unreserve_item index
  end.

(** The file systems the application reaches from one without the file,
    by any sequence of requests, failed ones included. *)
Inductive reachable : fs -> Prop :=
  | reach_start (st : fs) : st !! FILE_PATH = None -> reachable st
  | reach_call (st st' : fs) (c : call) (o : outcome response) :
      reachable st -> dispatch c st = (o, st') -> reachable st'.

(** No item has a [brand] key. *)
Definition brand_free (data : list item) : Prop :=
  Forall (fun it : item => it !! "brand" = None) data.

(** The record a template gets for an item without any key. *)
Definition default_view (idx : nat) : view_item :=
  {| v_index := Z.of_nat idx; v_name := JStr "-"; v_brand := JStr "";
     v_link := JStr ""; v_notes := JStr ""; v_image := JNull;
     v_purchased := JBool false |}.

End App.

(** ** A codec to run the handlers

    A file's text is either a well-formed document, kept as it is, or
    text that [json.load] rejects. *)
Definition document_codec : JsonCodec :=
  {| text := option (list item);
     json_dump := Some;
     json_load := fun t => t;
     json_load_dump := fun d => eq_refl |}.

Definition lamp : item :=
  list_to_map [("name", JStr "Lamp"); ("link", JStr "http://shop/lamp");
               ("notes", JStr "blue"); ("image", JStr "http://img/lamp.png");
               ("purchased", JBool false);
               ("created_at", JStr "2024-12-01T10:00:00")].

(** An item a hand-edited file may hold: most keys are missing. *)
Definition socks : item := list_to_map [("name", JStr "Socks")].

Definition mug : item :=
  list_to_map [("name", JStr "Mug"); ("link", JStr ""); ("notes", JStr "");
               ("image", JNull); ("purchased", JBool true);
               ("created_at", JStr "2024-12-02T09:30:00")].

Definition three_items : list item := [lamp; socks; mug].

(** A file system whose wishlist file holds [three_items], one without
    the file, and one whose file is not JSON. *)
Definition fs_three : gmap string (option (list item)) :=
  {[ FILE_PATH := Some three_items ]}.
Definition fs_none : gmap string (option (list item)) := empty.
Definition fs_garbage : gmap string (option (list item)) :=
  {[ FILE_PATH := None ]}.

Definition get_request : request := {| method := GET; form := empty |}.

(** The form [{name: "Kite", link: "http://k", notes: "red",
    image_url: "  http://img/k.png "}]. *)
Definition kite_request : request :=
  {| method := POST;
     form := <["name" := "Kite"]> (<["link" := "http://k"]>
             (<["notes" := "red"]> (<["image_url" := "  http://img/k.png "]> empty))) |}.

(** ** Vocabulary of the further properties *)




(** The ways a request rewrites the stored list. *)
Inductive list_step (data : list item) : call -> list item -> Prop :=
  | step_add (now : string) (req : request) (name link notes : string) :
      method req = POST ->
      form req !! "name" = Some name ->
      form req !! "link" = Some link ->
      form req !! "notes" = Some notes ->
      list_step data (CallWishlist now req)
        (data ++ [new_item name link notes
                    (str_or_None (py_strip (form_get req "image_url" ""))) now])
  | step_delete (index : Z) :
      in_range index data ->
      list_step data (CallDeleteItem index) (delete (Z.to_nat index) data)
  | step_reserve (index : Z) :
      in_range index data ->
      list_step data (CallReserveItem index)
        (with_purchased true (Z.to_nat index) data)
  | step_unreserve (index : Z) :
      in_range index data ->
      list_step data (CallUnreserveItem index)
        (with_purchased false (Z.to_nat index) data).

(** The keys of the dictionary the POST branch builds. *)
Definition item_keys : list string :=
  ["name"; "link"; "notes"; "image"; "purchased"; "created_at"].

(** The shape of an item the application itself stored: exactly the six
    keys, with strings under name, link, notes and created_at, null or a
    non-empty string under image, and a boolean under purchased. *)
Definition app_item (it : item) : Prop :=
  (forall k : string, is_Some (it !! k) <-> In k item_keys) /\
  (exists s : string, it !! "name" = Some (JStr s)) /\
  (exists s : string, it !! "link" = Some (JStr s)) /\
  (exists s : string, it !! "notes" = Some (JStr s)) /\
  (it !! "image" = Some JNull \/
   exists s : string, it !! "image" = Some (JStr s) /\ s <> EmptyString) /\
  (exists b : bool, it !! "purchased" = Some (JBool b)) /\
  (exists s : string, it !! "created_at" = Some (JStr s)).

(** A view record with its purchased field replaced. *)
Definition set_v_purchased (p : json) (v : view_item) : view_item :=
  {| v_index := v_index v; v_name := v_name v; v_brand := v_brand v;
     v_link := v_link v; v_notes := v_notes v; v_image := v_image v;
     v_purchased := p |}.

Section FlagRoute.
Context `{codec : JsonCodec}.

(** The route that sets the purchased flag to [b]: [/reserve] for true,
    [/unreserve] for false. *)
Definition flag_route (b : bool) : Z -> M response :=
  if b then reserve_item else unreserve_item.

End FlagRoute.

(** A POST form without the name field. *)
Definition nameless_request : request :=
  {| method := POST; form := <["link" := "http://k"]> (<["notes" := "red"]> empty) |}.

(** The file system after the Kite form is posted on [fs_none]. *)
Definition fs_kite : gmap string (option (list item)) :=
  <[FILE_PATH := Some [new_item "Kite" "http://k" "red" (JStr "http://img/k.png")
                         "2024-12-24T18:00:00"]]> fs_none.

(** * Proofs *)

Section AppProofs.
Context `{codec : JsonCodec}.
Local Abbreviation fs := (gmap string text).

(** ** Running the helpers *)

Lemma load_data_absent (st : fs) :
  st !! FILE_PATH = None -> load_data st = (Ok [], st).
Proof.
  intros Hnone. unfold load_data, bind, os_path_exists.
  rewrite bool_decide_eq_false_2; [reflexivity|].
  rewrite Hnone. apply is_Some_None.
Qed.

Lemma load_data_present (st : fs) (t : text) :
  st !! FILE_PATH = Some t ->
  load_data st = (match json_load t with
                 | Some d => Ok d
                 | None => Raise JSONDecodeError
                 end, st).
Proof.
  intros Hsome. unfold load_data, bind, os_path_exists.
  rewrite bool_decide_eq_true_2 by (rewrite Hsome; eauto).
  unfold open_json_load. rewrite Hsome. destruct (json_load t); reflexivity.
Qed.

(** Loading never writes. *)
Lemma load_data_pure (st : fs) : (load_data st).2 = st.
Proof.
  destruct (st !! FILE_PATH) as [t|] eqn:E.
  - rewrite (load_data_present _ _ E). reflexivity.
  - rewrite (load_data_absent _ E). reflexivity.
Qed.

Lemma save_data_run (data : list item) (st : fs) :
  save_data data st = (Ok tt, <[FILE_PATH := json_dump data]> st).
Proof. reflexivity. Qed.

Lemma holds_after_write (data : list item) (st : fs) :
  holds (<[FILE_PATH := json_dump data]> st) data.
Proof.
  unfold holds. rewrite (load_data_present _ (json_dump data)).
  - rewrite json_load_dump. reflexivity.
  - apply lookup_insert_eq.
Qed.

Lemma holds_inj (st : fs) (d1 d2 : list item) :
  holds st d1 -> holds st d2 -> d1 = d2.
Proof. unfold holds. intros H1 H2. congruence. Qed.

(** ** The index guard *)

Lemma guard_true (index : Z) (data : list item) :
  in_range index data ->
  (0 <=? index) && (index <? Z.of_nat (length data)) = true.
Proof. unfold in_range. intros [H0 H1]. apply andb_true_intro. split; lia. Qed.

Lemma guard_false (index : Z) (data : list item) :
  ~ in_range index data ->
  (0 <=? index) && (index <? Z.of_nat (length data)) = false.
Proof.
  unfold in_range. intros Hn. apply andb_false_iff.
  destruct (Z.leb_spec 0 index); [right|left; reflexivity].
  apply Z.ltb_ge. lia.
Qed.

Lemma py_index_in_range (index : Z) (data : list item) :
  in_range index data -> py_index index data = Some (Z.to_nat index).
Proof.
  intros Hr. unfold py_index.
  replace (index <? 0) with false by (destruct Hr; symmetry; apply Z.ltb_ge; lia).
  rewrite guard_true by assumption. reflexivity.
Qed.

Lemma in_range_nat (index : Z) (data : list item) :
  in_range index data -> (Z.to_nat index < length data)%nat.
Proof. unfold in_range. lia. Qed.

(** ** Running the handlers on a store that loads *)

Ltac run_loaded H :=
  unfold bind; unfold holds in H; rewrite H; cbn beta iota.

Lemma delete_item_in_range (st : fs) (data : list item) (index : Z) :
  holds st data -> in_range index data ->
  delete_item index st =
    (Ok (redirect "/"), <[FILE_PATH := json_dump (delete (Z.to_nat index) data)]> st).
Proof.
  intros Hload Hr. unfold delete_item. run_loaded Hload.
  rewrite guard_true by assumption.
  unfold lift, list_pop. rewrite py_index_in_range by assumption.
  reflexivity.
Qed.

Lemma delete_item_out_of_range (st : fs) (data : list item) (index : Z) :
  holds st data -> ~ in_range index data ->
  delete_item index st = (Ok (redirect "/"), st).
Proof.
  intros Hload Hr. unfold delete_item. run_loaded Hload.
  rewrite guard_false by assumption. reflexivity.
Qed.

Lemma reserve_item_in_range (st : fs) (data : list item) (index : Z) :
  holds st data -> in_range index data ->
  reserve_item index st =
    (Ok (redirect "/public"),
     <[FILE_PATH := json_dump (with_purchased true (Z.to_nat index) data)]> st).
Proof.
  intros Hload Hr. unfold reserve_item. run_loaded Hload.
  rewrite guard_true by assumption.
  unfold lift, list_item_setitem. rewrite py_index_in_range by assumption.
  reflexivity.
Qed.

Lemma reserve_item_out_of_range (st : fs) (data : list item) (index : Z) :
  holds st data -> ~ in_range index data ->
  reserve_item index st = (Ok (redirect "/public"), st).
Proof.
  intros Hload Hr. unfold reserve_item. run_loaded Hload.
  rewrite guard_false by assumption. reflexivity.
Qed.

Lemma unreserve_item_in_range (st : fs) (data : list item) (index : Z) :
  holds st data -> in_range index data ->
  unreserve_item index st =
    (Ok (redirect "/public"),
     <[FILE_PATH := json_dump (with_purchased false (Z.to_nat index) data)]> st).
Proof.
  intros Hload Hr. unfold unreserve_item. run_loaded Hload.
  rewrite guard_true by assumption.
  unfold lift, list_item_setitem. rewrite py_index_in_range by assumption.
  reflexivity.
Qed.

Lemma unreserve_item_out_of_range (st : fs) (data : list item) (index : Z) :
  holds st data -> ~ in_range index data ->
  unreserve_item index st = (Ok (redirect "/public"), st).
Proof.
  intros Hload Hr. unfold unreserve_item. run_loaded Hload.
  rewrite guard_false by assumption. reflexivity.
Qed.

(** The POST branch of [/], when the three required fields are present. *)
Lemma wishlist_post (st : fs) (data : list item) (now : string) (req : request)
    (name link notes : string) :
  holds st data ->
  method req = POST ->
  form req !! "name" = Some name ->
  form req !! "link" = Some link ->
  form req !! "notes" = Some notes ->
  wishlist now req st =
    (Ok (redirect "/"),
     <[FILE_PATH := json_dump (data ++ [new_item name link notes
         (str_or_None (py_strip (form_get req "image_url" ""))) now])]> st).
Proof.
  intros Hload Hm Hname Hlink Hnotes. unfold wishlist. run_loaded Hload.
  rewrite Hm. cbn [is_POST]. unfold form_getitem.
  rewrite Hname, Hlink, Hnotes. reflexivity.
Qed.

(** The other branch of [/]. *)
Lemma wishlist_get (st : fs) (data : list item) (now : string) (req : request) :
  holds st data ->
  method req <> POST ->
  wishlist now req st = (Ok (render_template "wishlist.html" (imap view_of data)), st).
Proof.
  intros Hload Hm. unfold wishlist. run_loaded Hload.
  destruct (method req); try reflexivity. contradiction.
Qed.

Lemma public_view_run (st : fs) (data : list item) :
  holds st data ->
  public_view st = (Ok (render_template "public_list.html" (imap view_of data)), st).
Proof. intros Hload. unfold public_view. run_loaded Hload. reflexivity. Qed.

(** Facts about [with_purchased]. *)
Lemma with_purchased_length (b : bool) (n : nat) (data : list item) :
  length (with_purchased b n data) = length data.
Proof. apply length_alter. Qed.

Lemma with_purchased_lookup (b : bool) (n : nat) (data : list item) (it : item) :
  data !! n = Some it ->
  with_purchased b n data !! n = Some (<["purchased" := JBool b]> it).
Proof.
  intros Hit. unfold with_purchased. rewrite list_lookup_alter_eq, Hit. reflexivity.
Qed.

Lemma with_purchased_lookup_ne (b : bool) (n j : nat) (data : list item) :
  n <> j -> with_purchased b n data !! j = data !! j.
Proof. intros Hne. unfold with_purchased. apply list_lookup_alter_ne. exact Hne. Qed.

Lemma purchased_at_with_purchased (b : bool) (n : nat) (data : list item) :
  (n < length data)%nat ->
  purchased_at n (with_purchased b n data) = Some (JBool b).
Proof.
  intros Hlt. destruct (lookup_lt_is_Some_2 data n Hlt) as [it Hit].
  unfold purchased_at. rewrite (with_purchased_lookup _ _ _ _ Hit).
  apply lookup_insert_eq.
Qed.

(** ** Persistence *)

(** C9: save followed by load is a round trip.  For every list of items
    and every file system (whatever the file held before, or no file at
    all), [save_data items] succeeds and [load_data] on the resulting file
    system returns [items], without changing it. *)
Theorem save_load_round_trip (items : list item) (st : fs) :
  exists st' : fs,
    save_data items st = (Ok tt, st') /\
    load_data st' = (Ok items, st') /\
    (forall st0 : fs, (load_data (save_data items st0).2).1 = (load_data st').1).
Proof.
  exists (<[FILE_PATH := json_dump items]> st). split; [apply save_data_run|].
  split; [apply holds_after_write|].
  intros st0. rewrite save_data_run. cbn [snd].
  rewrite (holds_after_write items st0), (holds_after_write items st). reflexivity.
Qed.

(** ** Deleting *)

(** C2: on a store holding [data], [/delete/index] with an index in range
    leaves a store whose list is one shorter, has the elements before the
    index at their positions and every later element one position down;
    with an index out of range the file system is left as it was.  In both
    cases the handler redirects to the owner list. *)
Theorem delete_item_spec (st : fs) (data : list item) (index : Z) :
  holds st data ->
  exists (st' : fs) (data' : list item),
    delete_item index st = (Ok (redirect "/"), st') /\
    holds st' data' /\
    (in_range index data ->
       S (length data') = length data /\
       (forall j : nat, (j < Z.to_nat index)%nat -> data' !! j = data !! j) /\
       (forall j : nat, (Z.to_nat index <= j)%nat -> data' !! j = data !! S j)) /\
    (~ in_range index data -> st' = st /\ data' = data).
Proof.
  intros Hload. destruct (decide (in_range index data)) as [Hr|Hr].
  - exists (<[FILE_PATH := json_dump (delete (Z.to_nat index) data)]> st),
      (delete (Z.to_nat index) data).
    split; [apply (delete_item_in_range _ _ _ Hload Hr)|].
    split; [apply holds_after_write|].
    split; [|contradiction].
    intros _. pose proof (in_range_nat _ _ Hr) as Hlt.
    split; [|split].
    + rewrite length_delete by (apply lookup_lt_is_Some_2; exact Hlt). lia.
    + intros j Hj. apply list_lookup_delete_lt. exact Hj.
    + intros j Hj. apply list_lookup_delete_ge. exact Hj.
  - exists st, data.
    split; [apply (delete_item_out_of_range _ _ _ Hload Hr)|].
    split; [exact Hload|]. split; [contradiction|]. intros _. split; reflexivity.
Qed.

(** ** Reserving and unreserving *)

(** C3: on a store holding [data], with an index in range [/reserve/index]
    leaves a store in which the item at the index has [purchased] true and
    [/unreserve/index] one in which it has [purchased] false; with an
    index out of range, [/delete], [/reserve] and [/unreserve] raise
    nothing, leave the file system exactly as it was and redirect. *)
Theorem set_purchased_spec (st : fs) (data : list item) (index : Z) :
  holds st data ->
  (in_range index data ->
     (exists (st' : fs) (data' : list item),
        reserve_item index st = (Ok (redirect "/public"), st') /\
        holds st' data' /\
        purchased_at (Z.to_nat index) data' = Some (JBool true)) /\
     (exists (st' : fs) (data' : list item),
        unreserve_item index st = (Ok (redirect "/public"), st') /\
        holds st' data' /\
        purchased_at (Z.to_nat index) data' = Some (JBool false))) /\
  (~ in_range index data ->
     delete_item index st = (Ok (redirect "/"), st) /\
     reserve_item index st = (Ok (redirect "/public"), st) /\
     unreserve_item index st = (Ok (redirect "/public"), st)).
Proof.
  intros Hload. split.
  - intros Hr. pose proof (in_range_nat _ _ Hr) as Hlt. split.
    + eexists _, _. split; [apply (reserve_item_in_range _ _ _ Hload Hr)|].
      split; [apply holds_after_write|].
      apply purchased_at_with_purchased. exact Hlt.
    + eexists _, _. split; [apply (unreserve_item_in_range _ _ _ Hload Hr)|].
      split; [apply holds_after_write|].
      apply purchased_at_with_purchased. exact Hlt.
  - intros Hr. split; [|split].
    + apply (delete_item_out_of_range _ _ _ Hload Hr).
    + apply (reserve_item_out_of_range _ _ _ Hload Hr).
    + apply (unreserve_item_out_of_range _ _ _ Hload Hr).
Qed.

Lemma with_purchased_twice (b c : bool) (n : nat) (data : list item) :
  with_purchased c n (with_purchased b n data) = with_purchased c n data.
Proof.
  unfold with_purchased. rewrite list_alter_alter_eq.
  apply list_alter_ext; [|reflexivity]. intros it _. cbn.
  apply insert_insert_eq.
Qed.

Lemma in_range_with_purchased (b : bool) (n : nat) (index : Z) (data : list item) :
  in_range index data -> in_range index (with_purchased b n data).
Proof. unfold in_range. rewrite with_purchased_length. trivial. Qed.

(** C4: on a store holding [data], with an index in range: after
    [/reserve/index] and then [/unreserve/index] the item at the index has
    [purchased] false; and a second [/reserve/index] leaves the file system
    exactly as the first left it, with [purchased] true. *)
Theorem reserve_unreserve_idempotent (st : fs) (data : list item) (index : Z) :
  holds st data -> in_range index data ->
  exists (st1 st2 : fs) (d1 d2 : list item),
    reserve_item index st = (Ok (redirect "/public"), st1) /\
    holds st1 d1 /\
    purchased_at (Z.to_nat index) d1 = Some (JBool true) /\
    unreserve_item index st1 = (Ok (redirect "/public"), st2) /\
    holds st2 d2 /\
    purchased_at (Z.to_nat index) d2 = Some (JBool false) /\
    reserve_item index st1 = (Ok (redirect "/public"), st1).
Proof.
  intros Hload Hr. pose proof (in_range_nat _ _ Hr) as Hlt.
  set (n := Z.to_nat index) in *.
  set (d1 := with_purchased true n data).
  assert (Hload1 : holds (<[FILE_PATH := json_dump d1]> st) d1)
    by apply holds_after_write.
  assert (Hr1 : in_range index d1) by (apply in_range_with_purchased; exact Hr).
  exists (<[FILE_PATH := json_dump d1]> st),
    (<[FILE_PATH := json_dump (with_purchased false n d1)]>
       (<[FILE_PATH := json_dump d1]> st)),
    d1, (with_purchased false n d1).
  split; [apply (reserve_item_in_range _ _ _ Hload Hr)|].
  split; [exact Hload1|].
  split; [apply purchased_at_with_purchased; exact Hlt|].
  split; [apply (unreserve_item_in_range _ _ _ Hload1 Hr1)|].
  split; [apply holds_after_write|].
  split.
  - apply purchased_at_with_purchased. unfold d1.
    rewrite with_purchased_length. exact Hlt.
  - rewrite (reserve_item_in_range _ _ _ Hload1 Hr1). fold n.
    unfold d1 at 1. rewrite with_purchased_twice. fold d1.
    rewrite insert_insert_eq. reflexivity.
Qed.

(** ** Adding *)

Lemma new_item_fields (name link notes : string) (image : json) (now : string) :
  let it := new_item name link notes image now in
  it !! "name" = Some (JStr name) /\
  it !! "link" = Some (JStr link) /\
  it !! "notes" = Some (JStr notes) /\
  it !! "image" = Some image /\
  it !! "purchased" = Some (JBool false) /\
  it !! "created_at" = Some (JStr now) /\
  it !! "brand" = None.
Proof. cbv zeta. unfold new_item. repeat split; by simplify_map_eq. Qed.

(** C1: on a store holding [data], a POST to [/] whose form has the fields
    [name], [link] and [notes] (with or without [image_url]) redirects to
    the owner list and leaves a store that holds [data] with exactly one
    item appended last; that item has the submitted name, link and notes,
    [purchased] false and [created_at] the time of the request. *)
Theorem add_appends_item (st : fs) (data : list item) (now : string)
    (req : request) (name link notes : string) :
  holds st data ->
  method req = POST ->
  form req !! "name" = Some name ->
  form req !! "link" = Some link ->
  form req !! "notes" = Some notes ->
  exists (st' : fs) (it : item),
    wishlist now req st = (Ok (redirect "/"), st') /\
    load_data st' = (Ok (data ++ [it]), st') /\
    it !! "name" = Some (JStr name) /\
    it !! "link" = Some (JStr link) /\
    it !! "notes" = Some (JStr notes) /\
    it !! "purchased" = Some (JBool false) /\
    it !! "created_at" = Some (JStr now).
Proof.
  intros Hload Hm Hname Hlink Hnotes.
  eexists _, _.
  split; [apply (wishlist_post _ _ now _ _ _ _ Hload Hm Hname Hlink Hnotes)|].
  split; [apply holds_after_write|].
  pose proof (new_item_fields name link notes
    (str_or_None (py_strip (form_get req "image_url" ""))) now) as H.
  cbv zeta in H. tauto.
Qed.

(** ** The missing file *)

Lemma not_in_range_nil (index : Z) : ~ in_range index [].
Proof. unfold in_range. cbn. lia. Qed.

(** C5: when the file does not exist, [load_data] returns the empty list,
    and no route raises: the two list views render the empty list, a POST
    to [/] with its required fields stores a one-item list, [/delete],
    [/reserve] and [/unreserve] redirect at any index, and, like
    [/wishlist] and [/add], leave the file system as it was. *)
Theorem absent_file_is_empty_list (st : fs) (now : string) (req : request) :
  st !! FILE_PATH = None ->
  load_data st = (Ok [], st) /\
  (method req <> POST ->
     wishlist now req st = (Ok (render_template "wishlist.html" []), st)) /\
  (forall name link notes : string,
     method req = POST ->
     form req !! "name" = Some name ->
     form req !! "link" = Some link ->
     form req !! "notes" = Some notes ->
     exists (st' : fs) (it : item),
       wishlist now req st = (Ok (redirect "/"), st') /\
       load_data st' = (Ok [it], st')) /\
  public_view st = (Ok (render_template "public_list.html" []), st) /\
  (forall index : Z,
     delete_item index st = (Ok (redirect "/"), st) /\
     reserve_item index st = (Ok (redirect "/public"), st) /\
     unreserve_item index st = (Ok (redirect "/public"), st)) /\
  wishlist_page st = (Ok (redirect "/"), st) /\
  add_page st = (Ok (redirect "/"), st).
Proof.
  intros Hnone. pose proof (load_data_absent _ Hnone) as Hload.
  split; [exact Hload|].
  split; [intros Hm; apply (wishlist_get _ _ now _ Hload Hm)|].
  split.
  { intros name link notes Hm Hname Hlink Hnotes. eexists _, _.
    split; [apply (wishlist_post _ _ now _ _ _ _ Hload Hm Hname Hlink Hnotes)|].
    apply (holds_after_write ([] ++ [_])). }
  split; [apply (public_view_run _ _ Hload)|].
  split; [|split; reflexivity].
  intros index. split; [|split].
  - apply (delete_item_out_of_range _ _ _ Hload (not_in_range_nil index)).
  - apply (reserve_item_out_of_range _ _ _ Hload (not_in_range_nil index)).
  - apply (unreserve_item_out_of_range _ _ _ Hload (not_in_range_nil index)).
Qed.

(** ** The example of the specification *)

Lemma in_range_0_singleton (it : item) : in_range 0 [it].
Proof. unfold in_range. cbn. lia. Qed.

(** C6: from an empty store, the POST of the Book form leaves a store
    holding one item, with name "Book", link "http://x", empty notes,
    [image] null (not the empty string) and [purchased] false;
    [/reserve/0] then leaves the same item with [purchased] true, and
    [/delete/0] leaves the empty list. *)
Theorem book_scenario (st0 : fs) (now : string) :
  holds st0 [] ->
  exists st1 st2 st3 : fs,
    wishlist now book_request st0 = (Ok (redirect "/"), st1) /\
    load_data st1 = (Ok [book_item false now], st1) /\
    book_item false now !! "image" = Some JNull /\
    book_item false now !! "image" <> Some (JStr "") /\
    book_item false now !! "purchased" = Some (JBool false) /\
    reserve_item 0 st1 = (Ok (redirect "/public"), st2) /\
    load_data st2 = (Ok [book_item true now], st2) /\
    delete_item 0 st2 = (Ok (redirect "/"), st3) /\
    load_data st3 = (Ok [], st3).
Proof.
  intros Hload.
  set (st1 := <[FILE_PATH := json_dump [book_item false now]]> st0).
  set (st2 := <[FILE_PATH := json_dump [book_item true now]]> st1).
  set (st3 := <[FILE_PATH := json_dump []]> st2).
  assert (H1 : holds st1 [book_item false now]) by apply holds_after_write.
  assert (H2 : holds st2 [book_item true now]) by apply holds_after_write.
  exists st1, st2, st3.
  split.
  { rewrite (wishlist_post _ _ now book_request "Book" "http://x" "" Hload);
      reflexivity. }
  split; [exact H1|].
  split; [reflexivity|]. split; [discriminate|]. split; [reflexivity|].
  split.
  { rewrite (reserve_item_in_range _ _ 0 H1 (in_range_0_singleton _)).
    reflexivity. }
  split; [exact H2|].
  split.
  { rewrite (delete_item_in_range _ _ 0 H2 (in_range_0_singleton _)).
    reflexivity. }
  apply holds_after_write.
Qed.

(** ** What reserving leaves alone *)

Lemma with_purchased_frame (b : bool) (n : nat) (data : list item) :
  (n < length data)%nat ->
  only_purchased_differs n data (with_purchased b n data).
Proof.
  intros Hlt. destruct (lookup_lt_is_Some_2 data n Hlt) as [it Hit].
  split; [apply with_purchased_length|]. split.
  - intros j Hj. apply with_purchased_lookup_ne. congruence.
  - exists it, (<["purchased" := JBool b]> it).
    split; [exact Hit|]. split; [apply with_purchased_lookup; exact Hit|].
    intros k Hk. apply lookup_insert_ne. congruence.
Qed.

(** C7: on a store holding [data], with an index in range, [/reserve] and
    [/unreserve] leave a store whose list has the same length, the same
    items at every other position, and at the index an item with the same
    entry under every key but [purchased] (so name, link, notes, image and
    created_at are as before); no other file is touched. *)
Theorem set_purchased_frame (st : fs) (data : list item) (index : Z) :
  holds st data -> in_range index data ->
  (exists (st' : fs) (data' : list item),
     reserve_item index st = (Ok (redirect "/public"), st') /\
     holds st' data' /\
     only_purchased_differs (Z.to_nat index) data data' /\
     (forall path : string, path <> FILE_PATH -> st' !! path = st !! path)) /\
  (exists (st' : fs) (data' : list item),
     unreserve_item index st = (Ok (redirect "/public"), st') /\
     holds st' data' /\
     only_purchased_differs (Z.to_nat index) data data' /\
     (forall path : string, path <> FILE_PATH -> st' !! path = st !! path)).
Proof.
  intros Hload Hr. pose proof (in_range_nat _ _ Hr) as Hlt. split.
  - eexists _, _. split; [apply (reserve_item_in_range _ _ _ Hload Hr)|].
    split; [apply holds_after_write|].
    split; [apply with_purchased_frame; exact Hlt|].
    intros path Hp. apply lookup_insert_ne. congruence.
  - eexists _, _. split; [apply (unreserve_item_in_range _ _ _ Hload Hr)|].
    split; [apply holds_after_write|].
    split; [apply with_purchased_frame; exact Hlt|].
    intros path Hp. apply lookup_insert_ne. congruence.
Qed.

(** ** Order *)

Lemma erase_with_purchased (b : bool) (n : nat) (data : list item) :
  erase_purchased (with_purchased b n data) = erase_purchased data.
Proof.
  unfold erase_purchased, with_purchased. apply list_eq. intros j.
  rewrite !list_lookup_fmap. destruct (decide (n = j)) as [->|Hne].
  - rewrite list_lookup_alter_eq. destruct (data !! j) as [it|]; [|reflexivity].
    cbn. f_equal. apply delete_insert_eq.
  - rewrite list_lookup_alter_ne by exact Hne. reflexivity.
Qed.

(** What each handler that may write does to the list, whatever the
    index. *)
Lemma delete_item_run (st : fs) (data : list item) (index : Z) :
  holds st data ->
  exists (st' : fs) (data' : list item),
    delete_item index st = (Ok (redirect "/"), st') /\ holds st' data' /\
    ((in_range index data /\ data' = delete (Z.to_nat index) data) \/
     (~ in_range index data /\ st' = st /\ data' = data)).
Proof.
  intros Hload. destruct (decide (in_range index data)) as [Hr|Hr].
  - eexists _, _. split; [apply (delete_item_in_range _ _ _ Hload Hr)|].
    split; [apply holds_after_write|]. left. split; [exact Hr|reflexivity].
  - exists st, data. split; [apply (delete_item_out_of_range _ _ _ Hload Hr)|].
    split; [exact Hload|]. right. repeat split. exact Hr.
Qed.

Lemma reserve_item_run (st : fs) (data : list item) (index : Z) :
  holds st data ->
  exists (st' : fs) (data' : list item),
    reserve_item index st = (Ok (redirect "/public"), st') /\ holds st' data' /\
    ((in_range index data /\ data' = with_purchased true (Z.to_nat index) data) \/
     (~ in_range index data /\ st' = st /\ data' = data)).
Proof.
  intros Hload. destruct (decide (in_range index data)) as [Hr|Hr].
  - eexists _, _. split; [apply (reserve_item_in_range _ _ _ Hload Hr)|].
    split; [apply holds_after_write|]. left. split; [exact Hr|reflexivity].
  - exists st, data. split; [apply (reserve_item_out_of_range _ _ _ Hload Hr)|].
    split; [exact Hload|]. right. repeat split. exact Hr.
Qed.

Lemma unreserve_item_run (st : fs) (data : list item) (index : Z) :
  holds st data ->
  exists (st' : fs) (data' : list item),
    unreserve_item index st = (Ok (redirect "/public"), st') /\ holds st' data' /\
    ((in_range index data /\ data' = with_purchased false (Z.to_nat index) data) \/
     (~ in_range index data /\ st' = st /\ data' = data)).
Proof.
  intros Hload. destruct (decide (in_range index data)) as [Hr|Hr].
  - eexists _, _. split; [apply (unreserve_item_in_range _ _ _ Hload Hr)|].
    split; [apply holds_after_write|]. left. split; [exact Hr|reflexivity].
  - exists st, data. split; [apply (unreserve_item_out_of_range _ _ _ Hload Hr)|].
    split; [exact Hload|]. right. repeat split. exact Hr.
Qed.

(** C8: on a store holding [data], (1) an add leaves [data] followed by
    the new item; (2) a delete, at any index, leaves a subsequence of
    [data] in the same relative order, namely [data] without the element at
    the index when it is in range; (3) a reserve or an unreserve, at any
    index, leaves a list that, [purchased] entries apart, is [data] item by
    item in the same positions. *)
Theorem insertion_order_preserved (st : fs) (data : list item) :
  holds st data ->
  (forall (now : string) (req : request) (name link notes : string),
     method req = POST ->
     form req !! "name" = Some name ->
     form req !! "link" = Some link ->
     form req !! "notes" = Some notes ->
     exists (st' : fs) (it : item),
       wishlist now req st = (Ok (redirect "/"), st') /\
       load_data st' = (Ok (data ++ [it]), st')) /\
  (forall index : Z,
     exists (st' : fs) (data' : list item),
       delete_item index st = (Ok (redirect "/"), st') /\
       load_data st' = (Ok data', st') /\
       sublist data' data /\
       (in_range index data ->
          data' = take (Z.to_nat index) data ++ drop (S (Z.to_nat index)) data)) /\
  (forall index : Z,
     (exists (st' : fs) (data' : list item),
        reserve_item index st = (Ok (redirect "/public"), st') /\
        load_data st' = (Ok data', st') /\
        erase_purchased data' = erase_purchased data) /\
     (exists (st' : fs) (data' : list item),
        unreserve_item index st = (Ok (redirect "/public"), st') /\
        load_data st' = (Ok data', st') /\
        erase_purchased data' = erase_purchased data)).
Proof.
  intros Hload. split; [|split].
  - intros now req name link notes Hm Hname Hlink Hnotes. eexists _, _.
    split; [apply (wishlist_post _ _ now _ _ _ _ Hload Hm Hname Hlink Hnotes)|].
    apply holds_after_write.
  - intros index.
    destruct (delete_item_run _ _ index Hload) as (st' & data' & Hrun & Hl & Hc).
    exists st', data'. split; [exact Hrun|]. split; [exact Hl|].
    destruct Hc as [[Hr ->]|(Hr & _ & ->)].
    + split; [apply sublist_delete|]. intros _. apply delete_take_drop.
    + split; [reflexivity|]. contradiction.
  - intros index. split.
    + destruct (reserve_item_run _ _ index Hload) as (st' & data' & Hrun & Hl & Hc).
      exists st', data'. split; [exact Hrun|]. split; [exact Hl|].
      destruct Hc as [[_ ->]|(_ & _ & ->)];
        [apply erase_with_purchased|reflexivity].
    + destruct (unreserve_item_run _ _ index Hload) as (st' & data' & Hrun & Hl & Hc).
      exists st', data'. split; [exact Hrun|]. split; [exact Hl|].
      destruct Hc as [[_ ->]|(_ & _ & ->)];
        [apply erase_with_purchased|reflexivity].
Qed.

(** ** The views *)

Lemma brand_free_with_purchased (b : bool) (n : nat) (data : list item) :
  brand_free data -> brand_free (with_purchased b n data).
Proof.
  unfold brand_free, with_purchased. intros Hbf.
  apply Forall_alter; [exact Hbf|].
  intros it _ Hit. rewrite lookup_insert_ne by discriminate. exact Hit.
Qed.

Lemma brand_free_delete (n : nat) (data : list item) :
  brand_free data -> brand_free (delete n data).
Proof. unfold brand_free. apply Forall_delete. Qed.

Lemma brand_free_add (data : list item) (name link notes : string)
    (image : json) (now : string) :
  brand_free data -> brand_free (data ++ [new_item name link notes image now]).
Proof.
  unfold brand_free. intros Hbf. apply Forall_app. split; [exact Hbf|].
  apply Forall_singleton. apply new_item_fields.
Qed.

(** The POST branch either raises before it writes or adds one item. *)
Lemma wishlist_run (st : fs) (data : list item) (now : string) (req : request)
    (o : outcome response) (st' : fs) :
  holds st data -> wishlist now req st = (o, st') ->
  st' = st \/
  exists (name link notes : string) (image : json),
    holds st' (data ++ [new_item name link notes image now]).
Proof.
  intros Hload. unfold wishlist. run_loaded Hload.
  destruct (is_POST (method req)); [|intros [= _ <-]; left; reflexivity].
  unfold form_getitem, raise, ret.
  destruct (form req !! "name") as [name|]; [|intros [= _ <-]; left; reflexivity].
  destruct (form req !! "link") as [link|]; [|intros [= _ <-]; left; reflexivity].
  destruct (form req !! "notes") as [notes|]; [|intros [= _ <-]; left; reflexivity].
  rewrite save_data_run. intros [= _ <-]. right.
  eexists _, _, _, _. apply holds_after_write.
Qed.

(** Every request keeps the store loadable and free of [brand] keys. *)
Lemma dispatch_brand_free (c : call) (st st' : fs) (data : list item)
    (o : outcome response) :
  holds st data -> brand_free data -> dispatch c st = (o, st') ->
  exists data' : list item, holds st' data' /\ brand_free data'.
Proof.
  intros Hload Hbf. destruct c as [now req|index| | | |index|index]; cbn [dispatch].
  - intros Hrun.
    destruct (wishlist_run _ _ _ _ _ _ Hload Hrun) as [->|(n & l & s & i & H')].
    + exists data. split; assumption.
    + eexists. split; [exact H'|]. apply brand_free_add. exact Hbf.
  - destruct (delete_item_run _ _ index Hload) as (st1 & d1 & -> & Hl & Hc).
    intros [= _ <-]. exists d1. split; [exact Hl|].
    destruct Hc as [[_ ->]|(_ & _ & ->)];
      [apply brand_free_delete; exact Hbf|exact Hbf].
  - intros [= _ <-]. exists data. split; assumption.
  - intros [= _ <-]. exists data. split; assumption.
  - rewrite (public_view_run _ _ Hload). intros [= _ <-].
    exists data. split; assumption.
  - destruct (reserve_item_run _ _ index Hload) as (st1 & d1 & -> & Hl & Hc).
    intros [= _ <-]. exists d1. split; [exact Hl|].
    destruct Hc as [[_ ->]|(_ & _ & ->)];
      [apply brand_free_with_purchased; exact Hbf|exact Hbf].
  - destruct (unreserve_item_run _ _ index Hload) as (st1 & d1 & -> & Hl & Hc).
    intros [= _ <-]. exists d1. split; [exact Hl|].
    destruct Hc as [[_ ->]|(_ & _ & ->)];
      [apply brand_free_with_purchased; exact Hbf|exact Hbf].
Qed.

Lemma reachable_brand_free (st : fs) :
  reachable st -> exists data : list item, holds st data /\ brand_free data.
Proof.
  induction 1 as [st Hnone|st st' c o _ (data & Hload & Hbf) Hrun].
  - exists []. split; [apply load_data_absent; exact Hnone|constructor].
  - apply (dispatch_brand_free c st st' data o Hload Hbf Hrun).
Qed.

(** C10: on a store holding [data], whatever keys its items have, the
    owner view and the public view raise nothing, write nothing and hand
    their templates the same list: one record per stored item, in order,
    with the item's position and, for each of name, brand, link, notes,
    image and purchased, the item's entry or, when the key is absent, the
    default "-", "", "", "", null, false.  On every store the application
    itself built from a missing file, no item has a brand key, so brand is
    "" in every record. *)
Theorem views_total (st : fs) (data : list item) (now : string) (req : request) :
  holds st data -> method req <> POST ->
  exists items : list view_item,
    wishlist now req st = (Ok (render_template "wishlist.html" items), st) /\
    public_view st = (Ok (render_template "public_list.html" items), st) /\
    length items = length data /\
    (forall (idx : nat) (it : item),
       data !! idx = Some it ->
       exists v : view_item,
         items !! idx = Some v /\
         v_index v = Z.of_nat idx /\
         v_name v = default (JStr "-") (it !! "name") /\
         v_brand v = default (JStr "") (it !! "brand") /\
         v_link v = default (JStr "") (it !! "link") /\
         v_notes v = default (JStr "") (it !! "notes") /\
         v_image v = default JNull (it !! "image") /\
         v_purchased v = default (JBool false) (it !! "purchased") /\
         (it = empty -> v = default_view idx)) /\
    (reachable st -> Forall (fun v : view_item => v_brand v = JStr "") items).
Proof.
  intros Hload Hm. exists (imap view_of data).
  split; [apply (wishlist_get _ _ now _ Hload Hm)|].
  split; [apply (public_view_run _ _ Hload)|].
  split; [apply length_imap|]. split.
  - intros idx it Hit. exists (view_of idx it).
    split; [rewrite list_lookup_imap, Hit; reflexivity|].
    unfold view_of, dict_get; cbn.
    split; [reflexivity|].
    repeat (split; [destruct (it !! _); reflexivity|]).
    intros ->. reflexivity.
  - intros Hreach.
    destruct (reachable_brand_free _ Hreach) as (data0 & Hload0 & Hbf).
    rewrite (holds_inj _ _ _ Hload0 Hload) in Hbf.
    apply Forall_lookup. intros idx v. rewrite list_lookup_imap.
    destruct (data !! idx) as [it|] eqn:Hit; [|discriminate].
    intros [= <-]. cbn. unfold dict_get.
    rewrite (proj1 (Forall_lookup _ _) Hbf idx it Hit). reflexivity.
Qed.

End AppProofs.


(** * Further properties of the handlers *)

Section MoreProofs.
Context `{codec : JsonCodec}.
Local Abbreviation fs := (gmap string text).

Ltac load_with H :=
  unfold bind; unfold holds in H; rewrite H; cbn beta iota.

(** ** A file that does not decode *)

Lemma load_data_cases (st : fs) :
  (exists data : list item, holds st data) \/
  (load_data st = (Raise JSONDecodeError, st) /\
   exists t : text, st !! FILE_PATH = Some t /\ json_load t = None).
Proof.
  destruct (st !! FILE_PATH) as [t|] eqn:E.
  - pose proof (load_data_present _ _ E) as H.
    destruct (json_load t) as [d|] eqn:Ed.
    + left. exists d. exact H.
    + right. split; [exact H|]. exists t. split; [reflexivity|exact Ed].
  - left. exists []. apply load_data_absent. exact E.
Qed.

Lemma load_raise_dispatch (st : fs) (e : exn) (c : call) :
  load_data st = (Raise e, st) ->
  match c with
  | CallWishlistPage | CallAddPage => dispatch c st = (Ok (redirect "/"), st)
  | _ => dispatch c st = (Raise e, st)
  end.
Proof.
  intros H. destruct c; cbn [dispatch];
    try reflexivity;
    unfold wishlist, delete_item, public_view, reserve_item, unreserve_item, bind;
    rewrite H; reflexivity.
Qed.

(** X1: when the wishlist file exists but does not decode, every route
    that loads it (the owner view and the add, the public view, delete,
    reserve, unreserve) raises the decode error, whatever the request, and
    writes nothing; the two legacy routes, which do not load, still
    redirect. *)
Theorem undecodable_file_raises (st : fs) (t : text) (now : string)
    (req : request) (index : Z) :
  st !! FILE_PATH = Some t -> json_load t = None ->
  wishlist now req st = (Raise JSONDecodeError, st) /\
  public_view st = (Raise JSONDecodeError, st) /\
  delete_item index st = (Raise JSONDecodeError, st) /\
  reserve_item index st = (Raise JSONDecodeError, st) /\
  unreserve_item index st = (Raise JSONDecodeError, st) /\
  wishlist_page st = (Ok (redirect "/"), st) /\
  add_page st = (Ok (redirect "/"), st).
Proof.
  intros Hfile Hbad.
  assert (H : load_data st = (Raise JSONDecodeError, st)).
  { rewrite (load_data_present _ _ Hfile), Hbad. reflexivity. }
  split; [exact (load_raise_dispatch st _ (CallWishlist now req) H)|].
  split; [exact (load_raise_dispatch st _ CallPublicView H)|].
  split; [exact (load_raise_dispatch st _ (CallDeleteItem index) H)|].
  split; [exact (load_raise_dispatch st _ (CallReserveItem index) H)|].
  split; [exact (load_raise_dispatch st _ (CallUnreserveItem index) H)|].
  split; reflexivity.
Qed.

(** ** The form of a POST *)

(** X2: on a store that loads, a POST to [/] that lacks a required field
    raises the bad-request key error of the first missing one, in the order
    name, link, notes, and writes nothing; a missing image_url is no
    error. *)
Theorem post_missing_field (st : fs) (data : list item) (now : string)
    (req : request) :
  holds st data -> method req = POST ->
  (form req !! "name" = None ->
     wishlist now req st = (Raise (BadRequestKeyError "name"), st)) /\
  (is_Some (form req !! "name") -> form req !! "link" = None ->
     wishlist now req st = (Raise (BadRequestKeyError "link"), st)) /\
  (is_Some (form req !! "name") -> is_Some (form req !! "link") ->
   form req !! "notes" = None ->
     wishlist now req st = (Raise (BadRequestKeyError "notes"), st)) /\
  (is_Some (form req !! "name") -> is_Some (form req !! "link") ->
   is_Some (form req !! "notes") -> form req !! "image_url" = None ->
     exists st' : fs, wishlist now req st = (Ok (redirect "/"), st')).
Proof.
  intros Hload Hm. unfold wishlist. load_with Hload.
  rewrite Hm. cbn [is_POST]. unfold form_getitem, raise, ret.
  split; [intros ->; reflexivity|].
  split; [intros [n ->] ->; reflexivity|].
  split; [intros [n ->] [l ->] ->; reflexivity|].
  intros [n ->] [l ->] [s ->] _. eexists. reflexivity.
Qed.

(** ** What a request may write *)

(** The three ways [wishlist] ends on a store that loads. *)
Lemma wishlist_cases (st : fs) (data : list item) (now : string) (req : request) :
  holds st data ->
  (method req <> POST /\
   wishlist now req st = (Ok (render_template "wishlist.html" (imap view_of data)), st)) \/
  (method req = POST /\
   exists k : string,
     In k ["name"; "link"; "notes"] /\ form req !! k = None /\
     wishlist now req st = (Raise (BadRequestKeyError k), st)) \/
  (method req = POST /\
   exists name link notes : string,
     form req !! "name" = Some name /\
     form req !! "link" = Some link /\
     form req !! "notes" = Some notes).
Proof.
  intros Hload.
  assert (Hd : method req = POST \/ method req <> POST)
    by (destruct (method req); [right; discriminate|right; discriminate|left; reflexivity]).
  destruct Hd as [Hm|Hm].
  2:{ left. split; [exact Hm|]. apply (wishlist_get _ _ now _ Hload Hm). }
  right.
  assert (Hrun : forall k : string, form req !! k = None ->
            form_getitem req k = raise (BadRequestKeyError k)).
  { intros k Hk. unfold form_getitem. rewrite Hk. reflexivity. }
  destruct (form req !! "name") as [name|] eqn:Hname.
  2:{ left. split; [exact Hm|]. exists "name". split; [cbn; tauto|].
      split; [exact Hname|]. unfold wishlist. load_with Hload.
      rewrite Hm. cbn [is_POST]. rewrite (Hrun _ Hname). reflexivity. }
  destruct (form req !! "link") as [link|] eqn:Hlink.
  2:{ left. split; [exact Hm|]. exists "link". split; [cbn; tauto|].
      split; [exact Hlink|]. unfold wishlist. load_with Hload.
      rewrite Hm. cbn [is_POST]. rewrite (Hrun _ Hlink).
      unfold form_getitem. rewrite Hname. reflexivity. }
  destruct (form req !! "notes") as [notes|] eqn:Hnotes.
  2:{ left. split; [exact Hm|]. exists "notes". split; [cbn; tauto|].
      split; [exact Hnotes|]. unfold wishlist. load_with Hload.
      rewrite Hm. cbn [is_POST]. rewrite (Hrun _ Hnotes).
      unfold form_getitem. rewrite Hname, Hlink. reflexivity. }
  right. split; [exact Hm|]. exists name, link, notes. repeat split.
Qed.

(** Every way a request ends, on any file system. *)
Lemma dispatch_cases (c : call) (st st' : fs) (o : outcome response) :
  dispatch c st = (o, st') ->
  (st' = st /\
   ((o = Raise JSONDecodeError /\ load_data st = (Raise JSONDecodeError, st)) \/
    (exists (now : string) (req : request) (k : string),
       c = CallWishlist now req /\ method req = POST /\
       In k ["name"; "link"; "notes"] /\ form req !! k = None /\
       o = Raise (BadRequestKeyError k)) \/
    exists r : response, o = Ok r)) \/
  exists (data data' : list item) (location : string),
    holds st data /\ list_step data c data' /\
    o = Ok (redirect location) /\ st' = <[FILE_PATH := json_dump data']> st.
Proof.
  destruct (load_data_cases st) as [[data Hload]|[Hraise _]].
  2:{ pose proof (load_raise_dispatch st _ c Hraise) as H.
      destruct c; rewrite H; intros [= <- <-]; left; split; eauto. }
  destruct c as [now req|index| | | |index|index]; cbn [dispatch].
  - destruct (wishlist_cases st data now req Hload)
      as [[Hm ->]|[(Hm & k & Hin & Hk & ->)|(Hm & name & link & notes & Hn & Hl & Hs)]].
    + intros [= <- <-]. left. split; eauto.
    + intros [= <- <-]. left. split; [reflexivity|]. right. left.
      exists now, req, k. repeat split; assumption.
    + rewrite (wishlist_post _ _ now _ _ _ _ Hload Hm Hn Hl Hs).
      intros [= <- <-]. right. eexists data, _, "/". split; [exact Hload|].
      split; [apply (step_add data now req name link notes Hm Hn Hl Hs)|].
      split; reflexivity.
  - destruct (decide (in_range index data)) as [Hr|Hr].
    + rewrite (delete_item_in_range _ _ _ Hload Hr). intros [= <- <-].
      right. eexists data, _, "/". split; [exact Hload|].
      split; [apply (step_delete data index Hr)|]. split; reflexivity.
    + rewrite (delete_item_out_of_range _ _ _ Hload Hr). intros [= <- <-].
      left. split; eauto.
  - intros [= <- <-]. left. split; eauto.
  - intros [= <- <-]. left. split; eauto.
  - rewrite (public_view_run _ _ Hload). intros [= <- <-]. left. split; eauto.
  - destruct (decide (in_range index data)) as [Hr|Hr].
    + rewrite (reserve_item_in_range _ _ _ Hload Hr). intros [= <- <-].
      right. eexists data, _, "/public". split; [exact Hload|].
      split; [apply (step_reserve data index Hr)|]. split; reflexivity.
    + rewrite (reserve_item_out_of_range _ _ _ Hload Hr). intros [= <- <-].
      left. split; eauto.
  - destruct (decide (in_range index data)) as [Hr|Hr].
    + rewrite (unreserve_item_in_range _ _ _ Hload Hr). intros [= <- <-].
      right. eexists data, _, "/public". split; [exact Hload|].
      split; [apply (step_unreserve data index Hr)|]. split; reflexivity.
    + rewrite (unreserve_item_out_of_range _ _ _ Hload Hr). intros [= <- <-].
      left. split; eauto.
Qed.

(** X3: whatever the file system, a request either leaves it exactly as it
    was, or the store loaded as some list, the wishlist file is overwritten
    with the serialisation of that list changed in one of four ways (a new
    item appended by a POST with its required fields; the element at an
    in-range index removed; the purchased flag at an in-range index set to
    true, or to false) and the answer is a redirect. *)
Theorem dispatch_writes (c : call) (st : fs) :
  (dispatch c st).2 = st \/
  exists (data data' : list item) (location : string),
    holds st data /\
    list_step data c data' /\
    dispatch c st = (Ok (redirect location), <[FILE_PATH := json_dump data']> st).
Proof.
  destruct (dispatch c st) as [o st'] eqn:Hrun. cbn [snd].
  destruct (dispatch_cases c st st' o Hrun)
    as [[-> _]|(data & data' & loc & Hload & Hstep & -> & ->)].
  - left. reflexivity.
  - right. exists data, data', loc. repeat split; assumption.
Qed.

(** X4: no request touches a file other than the wishlist file, and no
    request removes the wishlist file once it exists. *)
Theorem other_files_untouched (c : call) (st : fs) :
  (forall path : string,
     path <> FILE_PATH -> (dispatch c st).2 !! path = st !! path) /\
  (is_Some (st !! FILE_PATH) -> is_Some ((dispatch c st).2 !! FILE_PATH)).
Proof.
  destruct (dispatch c st) as [o st'] eqn:Hrun. cbn [snd].
  destruct (dispatch_cases c st st' o Hrun)
    as [[-> _]|(data & data' & loc & _ & _ & _ & ->)].
  - split; [reflexivity|trivial].
  - split.
    + intros path Hp. apply lookup_insert_ne. congruence.
    + intros _. rewrite lookup_insert_eq. eauto.
Qed.


(** X6: a store that loads still loads after any request, failed ones
    included, and its list is as long as before, one longer or one
    shorter. *)
Theorem store_stays_loadable (c : call) (st : fs) (data : list item) :
  holds st data ->
  exists data' : list item,
    holds (dispatch c st).2 data' /\
    (length data' = length data \/
     length data' = S (length data) \/
     S (length data') = length data).
Proof.
  intros Hload. destruct (dispatch c st) as [o st'] eqn:Hrun. cbn [snd].
  destruct (dispatch_cases c st st' o Hrun)
    as [[-> _]|(data0 & data' & loc & Hload0 & Hstep & _ & ->)].
  - exists data. split; [exact Hload|]. left. reflexivity.
  - rewrite (holds_inj _ _ _ Hload0 Hload) in Hstep.
    exists data'. split; [apply holds_after_write|].
    destruct Hstep as [now req name link notes _ _ _ _|index Hr|index Hr|index Hr].
    + right. left. rewrite length_app. cbn. lia.
    + right. right. pose proof (in_range_nat _ _ Hr) as Hlt.
      rewrite length_delete by (apply lookup_lt_is_Some_2; exact Hlt). lia.
    + left. apply with_purchased_length.
    + left. apply with_purchased_length.
Qed.

(** ** Stores the application built *)

Lemma str_or_None_shape (s : string) :
  str_or_None s = JNull \/
  exists s' : string, str_or_None s = JStr s' /\ s' <> EmptyString.
Proof.
  destruct s as [|c s]; [left; reflexivity|].
  right. exists (String c s). split; [reflexivity|discriminate].
Qed.

Lemma new_item_keys (name link notes : string) (image : json) (now k : string) :
  is_Some (new_item name link notes image now !! k) <-> In k item_keys.
Proof.
  unfold new_item, item_keys. split.
  - intros Hk. cbn [In].
    destruct (decide (k = "name")) as [->|H1]; [tauto|].
    destruct (decide (k = "link")) as [->|H2]; [tauto|].
    destruct (decide (k = "notes")) as [->|H3]; [tauto|].
    destruct (decide (k = "image")) as [->|H4]; [tauto|].
    destruct (decide (k = "purchased")) as [->|H5]; [tauto|].
    destruct (decide (k = "created_at")) as [->|H6]; [tauto|].
    rewrite !lookup_insert_ne, lookup_empty in Hk by congruence.
    destruct Hk as [x Hx]. discriminate.
  - cbn [In]. intros [<-|[<-|[<-|[<-|[<-|[<-|[]]]]]]]; by simplify_map_eq.
Qed.

Lemma app_item_new (name link notes now u : string) :
  app_item (new_item name link notes (str_or_None u) now).
Proof.
  pose proof (new_item_fields name link notes (str_or_None u) now) as H.
  cbv zeta in H. destruct H as (Hn & Hl & Hs & Hi & Hp & Hc & _).
  split; [intros k; apply new_item_keys|].
  split; [eauto|]. split; [eauto|]. split; [eauto|].
  split.
  { rewrite Hi. destruct (str_or_None_shape u) as [->|(s' & -> & Hne)];
      [left; reflexivity|right; eauto]. }
  split; eauto.
Qed.

Lemma app_item_set_purchased (b : bool) (it : item) :
  app_item it -> app_item (<["purchased" := JBool b]> it).
Proof.
  intros (Hk & Hn & Hl & Hs & Hi & Hp & Hc).
  split.
  { intros k. rewrite <- Hk. destruct (decide (k = "purchased")) as [->|Hne].
    - rewrite lookup_insert_eq. destruct Hp as [b' ->]. split; eauto.
    - rewrite lookup_insert_ne by congruence. reflexivity. }
  destruct Hn as [n Hn], Hl as [l Hl], Hs as [s Hs], Hc as [t Hc].
  split; [exists n; rewrite lookup_insert_ne by discriminate; exact Hn|].
  split; [exists l; rewrite lookup_insert_ne by discriminate; exact Hl|].
  split; [exists s; rewrite lookup_insert_ne by discriminate; exact Hs|].
  split; [rewrite lookup_insert_ne by discriminate; exact Hi|].
  split; [exists b; apply lookup_insert_eq|].
  exists t. rewrite lookup_insert_ne by discriminate. exact Hc.
Qed.

Lemma list_step_app_item (c : call) (data data' : list item) :
  list_step data c data' -> Forall app_item data -> Forall app_item data'.
Proof.
  intros Hstep Hall.
  destruct Hstep as [now req name link notes _ _ _ _|index _|index _|index _].
  - apply Forall_app. split; [exact Hall|].
    apply Forall_singleton. apply app_item_new.
  - apply Forall_delete. exact Hall.
  - unfold with_purchased. apply Forall_alter; [exact Hall|].
    intros it _ Hit. apply app_item_set_purchased. exact Hit.
  - unfold with_purchased. apply Forall_alter; [exact Hall|].
    intros it _ Hit. apply app_item_set_purchased. exact Hit.
Qed.

Lemma reachable_app_items (st : fs) :
  reachable st ->
  exists data : list item, holds st data /\ Forall app_item data.
Proof.
  induction 1 as [st Hnone|st st' c o _ (data & Hload & Hall) Hrun].
  - exists []. split; [apply load_data_absent; exact Hnone|constructor].
  - destruct (dispatch_cases c st st' o Hrun)
      as [[-> _]|(data0 & data' & loc & Hload0 & Hstep & _ & ->)].
    + exists data. split; assumption.
    + rewrite (holds_inj _ _ _ Hload0 Hload) in Hstep.
      exists data'. split; [apply holds_after_write|].
      apply (list_step_app_item c data data' Hstep Hall).
Qed.

(** X7: on every file system the application reaches from one without the
    wishlist file, by any sequence of requests, the store loads and every
    stored item has exactly the keys name, link, notes, image, purchased
    and created_at, with strings under name, link, notes and created_at,
    null or a non-empty string under image, and a boolean under purchased;
    so both views show every field from the item itself and only brand
    from its default. *)
Theorem reachable_items_well_formed (st : fs) :
  reachable st ->
  exists data : list item,
    load_data st = (Ok data, st) /\
    Forall app_item data /\
    forall (idx : nat) (it : item),
      data !! idx = Some it ->
      it !! "name" = Some (v_name (view_of idx it)) /\
      it !! "link" = Some (v_link (view_of idx it)) /\
      it !! "notes" = Some (v_notes (view_of idx it)) /\
      it !! "image" = Some (v_image (view_of idx it)) /\
      it !! "purchased" = Some (v_purchased (view_of idx it)) /\
      it !! "brand" = None.
Proof.
  intros Hreach. destruct (reachable_app_items st Hreach) as (data & Hload & Hall).
  exists data. split; [exact Hload|]. split; [exact Hall|].
  intros idx it Hit.
  pose proof (proj1 (Forall_lookup _ _) Hall idx it Hit)
    as (Hk & [n Hn] & [l Hl] & [s Hs] & Hi & [b Hp] & _).
  unfold view_of, dict_get; cbn. rewrite Hn, Hl, Hs, Hp.
  repeat (split; [reflexivity|]).
  split; [destruct Hi as [->|(s' & -> & _)]; reflexivity|].
  split; [reflexivity|].
  destruct (it !! "brand") as [x|] eqn:Hb; [|reflexivity].
  assert (Hin : In "brand" item_keys) by (apply Hk; eauto).
  cbn in Hin. repeat (destruct Hin as [Hin|Hin]; [discriminate|]). contradiction.
Qed.

(** X8: on every file system the application reaches from one without the
    wishlist file, no request raises the decode error: the application
    always reads back what it wrote.  A request there raises only for a
    POST that lacks name, link or notes. *)
Theorem reachable_never_decode_error (st : fs) (c : call) (e : exn) :
  reachable st -> (dispatch c st).1 = Raise e ->
  exists k : string, In k ["name"; "link"; "notes"] /\ e = BadRequestKeyError k.
Proof.
  intros Hreach. destruct (reachable_app_items st Hreach) as (data & Hload & _).
  destruct (dispatch c st) as [o st'] eqn:Hrun. cbn [fst]. intros ->.
  destruct (dispatch_cases c st st' _ Hrun)
    as [[-> Ho]|(d0 & d' & loc & _ & _ & Ho & _)]; [|discriminate].
  destruct Ho as [[_ Hraise]|[(now & req & k & -> & Hm & Hin & Hk & [= ->])|[r [=]]]].
  - unfold holds in Hload. congruence.
  - exists k. split; [exact Hin|reflexivity].
Qed.

(** ** The stored image *)











(** ** Requests in sequence *)

Lemma delete_last_app (data : list item) (it : item) :
  delete (length data) (data ++ [it]) = data.
Proof.
  induction data as [|x data IH]; [reflexivity|].
  cbn. f_equal. exact IH.
Qed.

(** X10: on a store that loads as [data], adding an item and then deleting
    at the index shown for it (the old length) gives back a store that
    loads as [data]. *)
Theorem add_then_delete_last (st : fs) (data : list item) (now : string)
    (req : request) (name link notes : string) :
  holds st data ->
  method req = POST ->
  form req !! "name" = Some name ->
  form req !! "link" = Some link ->
  form req !! "notes" = Some notes ->
  exists st1 st2 : fs,
    wishlist now req st = (Ok (redirect "/"), st1) /\
    delete_item (Z.of_nat (length data)) st1 = (Ok (redirect "/"), st2) /\
    load_data st2 = (Ok data, st2).
Proof.
  intros Hload Hm Hname Hlink Hnotes.
  set (it := new_item name link notes
               (str_or_None (py_strip (form_get req "image_url" ""))) now).
  assert (H1 : holds (<[FILE_PATH := json_dump (data ++ [it])]> st) (data ++ [it]))
    by apply holds_after_write.
  assert (Hr : in_range (Z.of_nat (length data)) (data ++ [it])).
  { unfold in_range. rewrite length_app. cbn. lia. }
  eexists _, _.
  split; [apply (wishlist_post _ _ now _ _ _ _ Hload Hm Hname Hlink Hnotes)|].
  fold it. split; [apply (delete_item_in_range _ _ _ H1 Hr)|].
  rewrite Nat2Z.id, delete_last_app. apply holds_after_write.
Qed.

Lemma flag_route_in_range (b : bool) (st : fs) (data : list item) (index : Z) :
  holds st data -> in_range index data ->
  flag_route b index st =
    (Ok (redirect "/public"),
     <[FILE_PATH := json_dump (with_purchased b (Z.to_nat index) data)]> st).
Proof.
  destruct b; [apply reserve_item_in_range|apply unreserve_item_in_range].
Qed.

Lemma flag_route_out_of_range (b : bool) (st : fs) (data : list item) (index : Z) :
  holds st data -> ~ in_range index data ->
  flag_route b index st = (Ok (redirect "/public"), st).
Proof.
  destruct b; [apply reserve_item_out_of_range|apply unreserve_item_out_of_range].
Qed.

Lemma in_range_with_purchased_iff (b : bool) (n : nat) (index : Z)
    (data : list item) :
  in_range index (with_purchased b n data) <-> in_range index data.
Proof. unfold in_range. rewrite with_purchased_length. reflexivity. Qed.

Lemma with_purchased_commute (b c : bool) (n m : nat) (data : list item) :
  n <> m ->
  with_purchased c m (with_purchased b n data) =
  with_purchased b n (with_purchased c m data).
Proof.
  intros Hne. unfold with_purchased. apply list_alter_alter_ne. congruence.
Qed.

(** Setting flags at two different indices, in either order. *)
Lemma flag_route_commute (b c : bool) (st : fs) (data : list item) (i j : Z) :
  holds st data -> i <> j ->
  (flag_route c j (flag_route b i st).2).2 =
  (flag_route b i (flag_route c j st).2).2.
Proof.
  intros Hload Hij.
  destruct (decide (in_range i data)) as [Hi|Hi];
    destruct (decide (in_range j data)) as [Hj|Hj].
  - rewrite (flag_route_in_range b _ _ _ Hload Hi),
      (flag_route_in_range c _ _ _ Hload Hj). cbn [snd].
    rewrite (flag_route_in_range c _ _ j (holds_after_write _ st))
      by (apply in_range_with_purchased_iff; exact Hj).
    rewrite (flag_route_in_range b _ _ i (holds_after_write _ st))
      by (apply in_range_with_purchased_iff; exact Hi).
    cbn [snd]. rewrite !insert_insert_eq. f_equal. f_equal.
    apply with_purchased_commute. unfold in_range in Hi, Hj. lia.
  - rewrite (flag_route_in_range b _ _ _ Hload Hi),
      (flag_route_out_of_range c _ _ _ Hload Hj). cbn [snd].
    rewrite (flag_route_out_of_range c _ _ j (holds_after_write _ st))
      by (rewrite in_range_with_purchased_iff; exact Hj).
    rewrite (flag_route_in_range b _ _ _ Hload Hi). reflexivity.
  - rewrite (flag_route_out_of_range b _ _ _ Hload Hi),
      (flag_route_in_range c _ _ _ Hload Hj). cbn [snd].
    rewrite (flag_route_out_of_range b _ _ i (holds_after_write _ st))
      by (rewrite in_range_with_purchased_iff; exact Hi).
    rewrite (flag_route_in_range c _ _ _ Hload Hj). reflexivity.
  - rewrite (flag_route_out_of_range b _ _ _ Hload Hi),
      (flag_route_out_of_range c _ _ _ Hload Hj). cbn [snd].
    rewrite (flag_route_out_of_range b _ _ _ Hload Hi),
      (flag_route_out_of_range c _ _ _ Hload Hj). reflexivity.
Qed.

(** X11: on a store that loads, reserving or unreserving at two different
    indices gives the same file system in either order, whether or not the
    indices are in range. *)
Theorem set_purchased_commute (st : fs) (data : list item) (i j : Z) :
  holds st data -> i <> j ->
  (reserve_item j (reserve_item i st).2).2 =
    (reserve_item i (reserve_item j st).2).2 /\
  (unreserve_item j (reserve_item i st).2).2 =
    (reserve_item i (unreserve_item j st).2).2 /\
  (unreserve_item j (unreserve_item i st).2).2 =
    (unreserve_item i (unreserve_item j st).2).2.
Proof.
  intros Hload Hij. split; [|split].
  - exact (flag_route_commute true true st data i j Hload Hij).
  - exact (flag_route_commute true false st data i j Hload Hij).
  - exact (flag_route_commute false false st data i j Hload Hij).
Qed.

(** Setting the flag twice at one index: the second request decides. *)
Lemma flag_route_overwrite (b c : bool) (st : fs) (data : list item) (i : Z) :
  holds st data ->
  (flag_route c i (flag_route b i st).2).2 = (flag_route c i st).2.
Proof.
  intros Hload. destruct (decide (in_range i data)) as [Hi|Hi].
  - rewrite (flag_route_in_range b _ _ _ Hload Hi),
      (flag_route_in_range c _ _ _ Hload Hi). cbn [snd].
    rewrite (flag_route_in_range c _ _ i (holds_after_write _ st))
      by (apply in_range_with_purchased_iff; exact Hi).
    cbn [snd]. rewrite insert_insert_eq, with_purchased_twice. reflexivity.
  - rewrite (flag_route_out_of_range b _ _ _ Hload Hi),
      (flag_route_out_of_range c _ _ _ Hload Hi). cbn [snd].
    rewrite (flag_route_out_of_range c _ _ _ Hload Hi). reflexivity.
Qed.

(** X12: on a store that loads, of two reserve or unreserve requests at
    the same index the last one decides: the file system after both is the
    file system the second alone would leave.  In particular unreserve is
    idempotent, like reserve. *)
Theorem last_flag_wins (st : fs) (data : list item) (i : Z) :
  holds st data ->
  (reserve_item i (unreserve_item i st).2).2 = (reserve_item i st).2 /\
  (unreserve_item i (reserve_item i st).2).2 = (unreserve_item i st).2 /\
  (unreserve_item i (unreserve_item i st).2).2 = (unreserve_item i st).2 /\
  (reserve_item i (reserve_item i st).2).2 = (reserve_item i st).2.
Proof.
  intros Hload. split; [|split; [|split]].
  - exact (flag_route_overwrite false true st data i Hload).
  - exact (flag_route_overwrite true false st data i Hload).
  - exact (flag_route_overwrite false false st data i Hload).
  - exact (flag_route_overwrite true true st data i Hload).
Qed.

Lemma with_purchased_id_iff (b : bool) (n : nat) (data : list item) (it : item) :
  data !! n = Some it ->
  with_purchased b n data = data <-> it !! "purchased" = Some (JBool b).
Proof.
  intros Hit. split.
  - intros Heq.
    assert (H : with_purchased b n data !! n = Some it) by (rewrite Heq; exact Hit).
    rewrite (with_purchased_lookup _ _ _ _ Hit) in H.
    injection H as H. rewrite <- H at 1. apply lookup_insert_eq.
  - intros Hp. apply list_eq. intros j.
    destruct (decide (n = j)) as [<-|Hne].
    + rewrite (with_purchased_lookup _ _ _ _ Hit), Hit.
      f_equal. apply insert_id. exact Hp.
    + apply with_purchased_lookup_ne. exact Hne.
Qed.

(** X13: on a store that loads as [data], with an index in range, reserve
    followed by unreserve leaves a store that loads as [data] again exactly
    when the item had purchased false to begin with; an item without a
    purchased entry, or with another value there, comes back changed. *)
Theorem reserve_unreserve_restores (st : fs) (data : list item) (index : Z)
    (it : item) :
  holds st data -> in_range index data ->
  data !! Z.to_nat index = Some it ->
  exists (st1 st2 : fs) (d2 : list item),
    reserve_item index st = (Ok (redirect "/public"), st1) /\
    unreserve_item index st1 = (Ok (redirect "/public"), st2) /\
    load_data st2 = (Ok d2, st2) /\
    (d2 = data <-> it !! "purchased" = Some (JBool false)).
Proof.
  intros Hload Hr Hit. set (n := Z.to_nat index) in *.
  set (d1 := with_purchased true n data).
  assert (H1 : holds (<[FILE_PATH := json_dump d1]> st) d1)
    by apply holds_after_write.
  assert (Hr1 : in_range index d1) by (apply in_range_with_purchased_iff; exact Hr).
  eexists _, _, _.
  split; [apply (reserve_item_in_range _ _ _ Hload Hr)|].
  split; [apply (unreserve_item_in_range _ _ _ H1 Hr1)|].
  split; [apply holds_after_write|].
  fold n. unfold d1. rewrite with_purchased_twice.
  apply with_purchased_id_iff. exact Hit.
Qed.

(** X14: deleting shifts the positions that later requests address.  On a
    store that loads as [data], after a delete at an in-range index, a
    reserve at the same index marks the item that was stored one position
    later and leaves the earlier items as they were; when the deleted item
    was the last, that reserve is out of range and writes nothing. *)
Theorem delete_shifts_identity (st : fs) (data : list item) (index : Z) :
  holds st data -> in_range index data ->
  exists st1 : fs,
    delete_item index st = (Ok (redirect "/"), st1) /\
    (forall next : item,
       data !! S (Z.to_nat index) = Some next ->
       exists (st2 : fs) (d2 : list item),
         reserve_item index st1 = (Ok (redirect "/public"), st2) /\
         load_data st2 = (Ok d2, st2) /\
         d2 !! Z.to_nat index = Some (<["purchased" := JBool true]> next) /\
         (forall j : nat, (j < Z.to_nat index)%nat -> d2 !! j = data !! j)) /\
    (data !! S (Z.to_nat index) = None ->
       reserve_item index st1 = (Ok (redirect "/public"), st1)).
Proof.
  intros Hload Hr. pose proof (in_range_nat _ _ Hr) as Hlt.
  set (n := Z.to_nat index) in *.
  set (d1 := delete n data).
  assert (H1 : holds (<[FILE_PATH := json_dump d1]> st) d1)
    by apply holds_after_write.
  assert (Hlen : S (length d1) = length data).
  { unfold d1. rewrite length_delete by (apply lookup_lt_is_Some_2; exact Hlt). lia. }
  exists (<[FILE_PATH := json_dump d1]> st).
  split; [apply (delete_item_in_range _ _ _ Hload Hr)|]. split.
  - intros next Hnext.
    assert (Hn1 : d1 !! n = Some next).
    { unfold d1. rewrite list_lookup_delete_ge by lia. exact Hnext. }
    assert (Hr1 : in_range index d1).
    { pose proof (lookup_lt_Some _ _ _ Hn1). unfold in_range in *. lia. }
    eexists _, _.
    split; [apply (reserve_item_in_range _ _ _ H1 Hr1)|].
    split; [apply holds_after_write|]. fold n. split.
    + apply with_purchased_lookup. exact Hn1.
    + intros j Hj. rewrite with_purchased_lookup_ne by lia.
      unfold d1. apply list_lookup_delete_lt. exact Hj.
  - intros Hnone. apply (reserve_item_out_of_range _ _ _ H1).
    apply lookup_ge_None in Hnone. unfold in_range in *. lia.
Qed.

(** ** The views and the requests built from them *)

(** X15: on a store that loads as [data], every record of the owner view
    and of the public view carries as its index its own position, which is
    in range; a delete at the index of a record removes exactly the item
    the record shows, and a reserve at it marks exactly that item. *)
Theorem view_index_addresses_item (st : fs) (data : list item) (now : string)
    (req : request) :
  holds st data -> method req <> POST ->
  exists items : list view_item,
    wishlist now req st = (Ok (render_template "wishlist.html" items), st) /\
    public_view st = (Ok (render_template "public_list.html" items), st) /\
    forall (j : nat) (v : view_item),
      items !! j = Some v ->
      exists it : item,
        data !! j = Some it /\
        v = view_of j it /\
        v_index v = Z.of_nat j /\
        in_range (v_index v) data /\
        (exists st' : fs,
           delete_item (v_index v) st = (Ok (redirect "/"), st') /\
           load_data st' = (Ok (take j data ++ drop (S j) data), st')) /\
        (exists (st' : fs) (data' : list item),
           reserve_item (v_index v) st = (Ok (redirect "/public"), st') /\
           load_data st' = (Ok data', st') /\
           data' !! j = Some (<["purchased" := JBool true]> it) /\
           forall k : nat, k <> j -> data' !! k = data !! k).
Proof.
  intros Hload Hm. exists (imap view_of data).
  split; [apply (wishlist_get _ _ now _ Hload Hm)|].
  split; [apply (public_view_run _ _ Hload)|].
  intros j v. rewrite list_lookup_imap.
  destruct (data !! j) as [it|] eqn:Hit; [|discriminate].
  intros [= <-]. exists it. split; [reflexivity|]. split; [reflexivity|].
  split; [reflexivity|]. cbn [v_index view_of].
  assert (Hr : in_range (Z.of_nat j) data).
  { pose proof (lookup_lt_Some _ _ _ Hit). unfold in_range. lia. }
  split; [exact Hr|]. split.
  - eexists. split; [apply (delete_item_in_range _ _ _ Hload Hr)|].
    rewrite Nat2Z.id, delete_take_drop. apply holds_after_write.
  - eexists _, _. split; [apply (reserve_item_in_range _ _ _ Hload Hr)|].
    split; [apply holds_after_write|]. rewrite Nat2Z.id. split.
    + apply with_purchased_lookup. exact Hit.
    + intros k Hk. apply with_purchased_lookup_ne. congruence.
Qed.

Lemma view_of_set_purchased (b : bool) (idx : nat) (it : item) :
  view_of idx (<["purchased" := JBool b]> it) =
  set_v_purchased (JBool b) (view_of idx it).
Proof.
  unfold view_of, set_v_purchased, dict_get. cbn.
  rewrite !lookup_insert_ne by discriminate. rewrite lookup_insert_eq.
  reflexivity.
Qed.

Lemma imap_view_with_purchased (b : bool) (n : nat) (data : list item) :
  imap view_of (with_purchased b n data) =
  alter (set_v_purchased (JBool b)) n (imap view_of data).
Proof.
  apply list_eq. intros j. unfold with_purchased.
  rewrite list_lookup_imap. destruct (decide (n = j)) as [<-|Hne].
  - rewrite !list_lookup_alter_eq, list_lookup_imap.
    destruct (data !! n) as [it|]; [|reflexivity].
    cbn. f_equal. apply view_of_set_purchased.
  - rewrite !list_lookup_alter_ne by exact Hne.
    rewrite list_lookup_imap. reflexivity.
Qed.

(** X16: on a store that loads, with an index in range, the public view
    rendered after a reserve is the view rendered before it with purchased
    set to true in the record at the index and nothing else changed; after
    an unreserve, with purchased set to false. *)
Theorem view_after_set_purchased (st : fs) (data : list item) (index : Z) :
  holds st data -> in_range index data ->
  exists (items : list view_item) (st1 st2 : fs),
    public_view st = (Ok (render_template "public_list.html" items), st) /\
    reserve_item index st = (Ok (redirect "/public"), st1) /\
    public_view st1 =
      (Ok (render_template "public_list.html"
             (alter (set_v_purchased (JBool true)) (Z.to_nat index) items)), st1) /\
    unreserve_item index st = (Ok (redirect "/public"), st2) /\
    public_view st2 =
      (Ok (render_template "public_list.html"
             (alter (set_v_purchased (JBool false)) (Z.to_nat index) items)), st2).
Proof.
  intros Hload Hr. eexists _, _, _.
  split; [apply (public_view_run _ _ Hload)|].
  split; [apply (reserve_item_in_range _ _ _ Hload Hr)|].
  split.
  { rewrite (public_view_run _ _ (holds_after_write _ st)).
    rewrite imap_view_with_purchased. reflexivity. }
  split; [apply (unreserve_item_in_range _ _ _ Hload Hr)|].
  rewrite (public_view_run _ _ (holds_after_write _ st)).
  rewrite imap_view_with_purchased. reflexivity.
Qed.

(** X17: on a store that loads as [data], after a POST to [/] with its
    required fields the owner view is the view before it followed by one
    record, whose index is the old length and which shows the submitted
    name, link and notes, the default brand, and purchased false. *)
Theorem view_after_add (st : fs) (data : list item) (now : string)
    (req get : request) (name link notes : string) :
  holds st data ->
  method req = POST ->
  form req !! "name" = Some name ->
  form req !! "link" = Some link ->
  form req !! "notes" = Some notes ->
  method get <> POST ->
  exists (items : list view_item) (st1 : fs) (v : view_item),
    wishlist now get st = (Ok (render_template "wishlist.html" items), st) /\
    wishlist now req st = (Ok (redirect "/"), st1) /\
    wishlist now get st1 = (Ok (render_template "wishlist.html" (items ++ [v])), st1) /\
    v_index v = Z.of_nat (length data) /\
    v_name v = JStr name /\ v_link v = JStr link /\ v_notes v = JStr notes /\
    v_brand v = JStr "" /\ v_purchased v = JBool false.
Proof.
  intros Hload Hm Hname Hlink Hnotes Hget.
  set (it := new_item name link notes
               (str_or_None (py_strip (form_get req "image_url" ""))) now).
  exists (imap view_of data), (<[FILE_PATH := json_dump (data ++ [it])]> st),
    (view_of (length data) it).
  split; [apply (wishlist_get _ _ now _ Hload Hget)|].
  split; [apply (wishlist_post _ _ now _ _ _ _ Hload Hm Hname Hlink Hnotes)|].
  split.
  { rewrite (wishlist_get _ _ now get (holds_after_write (data ++ [it]) st) Hget).
    rewrite imap_app. cbn [imap]. rewrite Nat.add_0_r. reflexivity. }
  pose proof (new_item_fields name link notes
    (str_or_None (py_strip (form_get req "image_url" ""))) now) as H.
  cbv zeta in H. fold it in H. destruct H as (Hn & Hl & Hs & _ & Hp & _ & Hb).
  unfold view_of, dict_get; cbn. rewrite Hn, Hl, Hs, Hp, Hb. repeat split.
Qed.

(** ** More requests in sequence *)

(** X18: nothing is checked for duplicates.  On a store that loads as
    [data], posting the same form twice stores two items after [data], in
    order, equal in every entry except possibly created_at, and equal
    outright when the two requests carry the same timestamp. *)
Theorem add_twice_stores_both (st : fs) (data : list item) (now1 now2 : string)
    (req : request) (name link notes : string) :
  holds st data ->
  method req = POST ->
  form req !! "name" = Some name ->
  form req !! "link" = Some link ->
  form req !! "notes" = Some notes ->
  exists (st1 st2 : fs) (it1 it2 : item),
    wishlist now1 req st = (Ok (redirect "/"), st1) /\
    wishlist now2 req st1 = (Ok (redirect "/"), st2) /\
    load_data st2 = (Ok (data ++ [it1; it2]), st2) /\
    (forall k : string, k <> "created_at" -> it1 !! k = it2 !! k) /\
    (now1 = now2 -> it1 = it2).
Proof.
  intros Hload Hm Hname Hlink Hnotes.
  set (image := str_or_None (py_strip (form_get req "image_url" ""))).
  set (it1 := new_item name link notes image now1).
  set (it2 := new_item name link notes image now2).
  assert (H1 : holds (<[FILE_PATH := json_dump (data ++ [it1])]> st) (data ++ [it1]))
    by apply holds_after_write.
  eexists _, _, it1, it2.
  split; [apply (wishlist_post _ _ now1 _ _ _ _ Hload Hm Hname Hlink Hnotes)|].
  split; [apply (wishlist_post _ _ now2 _ _ _ _ H1 Hm Hname Hlink Hnotes)|].
  split.
  { fold image it1 it2. rewrite <- app_assoc. apply holds_after_write. }
  split.
  - intros k Hk. unfold it1, it2, new_item.
    rewrite !lookup_insert.
    repeat case_decide; try reflexivity. congruence.
  - intros ->. reflexivity.
Qed.

Lemma delete_delete_shift (l : list item) (i j : nat) :
  (i <= j)%nat -> delete j (delete i l) = delete i (delete (S j) l).
Proof.
  revert i j. induction l as [|x l IH]; intros i j Hij; [reflexivity|].
  destruct i as [|i]; [reflexivity|].
  destruct j as [|j]; [lia|].
  cbn. f_equal. apply IH. lia.
Qed.

(** X19: two deletes address positions, not items.  On a store that loads
    as [data], with [i < j] both in range, deleting at [j] and then at [i]
    leaves the same file system as deleting at [i] and then at [j - 1]:
    after the element at [i] is gone, the element that was at [j] is found
    one position lower. *)
Theorem delete_order (st : fs) (data : list item) (i j : Z) :
  holds st data -> in_range i data -> in_range j data -> i < j ->
  (delete_item i (delete_item j st).2).2 =
  (delete_item (j - 1) (delete_item i st).2).2.
Proof.
  intros Hload Hi Hj Hij.
  pose proof (in_range_nat _ _ Hi) as Hin. pose proof (in_range_nat _ _ Hj) as Hjn.
  assert (Hli : length (delete (Z.to_nat i) data) = pred (length data)).
  { rewrite length_delete by (apply lookup_lt_is_Some_2; exact Hin). lia. }
  assert (Hlj : length (delete (Z.to_nat j) data) = pred (length data)).
  { rewrite length_delete by (apply lookup_lt_is_Some_2; exact Hjn). lia. }
  rewrite (delete_item_in_range _ _ _ Hload Hj),
    (delete_item_in_range _ _ _ Hload Hi). cbn [snd].
  rewrite (delete_item_in_range _ _ i (holds_after_write _ st))
    by (unfold in_range in *; rewrite Hlj; lia).
  rewrite (delete_item_in_range _ _ (j - 1) (holds_after_write _ st))
    by (unfold in_range in *; rewrite Hli; lia).
  cbn [snd]. rewrite !insert_insert_eq. f_equal. f_equal.
  unfold in_range in Hi, Hj.
  replace (Z.to_nat j) with (S (Z.to_nat (j - 1))) by lia.
  symmetry. apply delete_delete_shift. lia.
Qed.

(** ** Requests that only read *)

(** X20: on any file system, decodable or not, the owner view (any method
    but POST), the public view and the two legacy routes write nothing;
    delete, reserve and unreserve write nothing at a negative index, nor,
    on a store that loads, at an index equal to the length or above. *)
Theorem read_only_requests (st : fs) (now : string) (req : request) :
  (method req <> POST -> (wishlist now req st).2 = st) /\
  (public_view st).2 = st /\
  (wishlist_page st).2 = st /\
  (add_page st).2 = st /\
  (forall (index : Z) (data : list item),
     index < 0 \/ (holds st data /\ Z.of_nat (length data) <= index) ->
     (delete_item index st).2 = st /\
     (reserve_item index st).2 = st /\
     (unreserve_item index st).2 = st).
Proof.
  assert (Hro : forall c : call,
            (forall data data' : list item, holds st data -> ~ list_step data c data') ->
            (dispatch c st).2 = st).
  { intros c Hno. destruct (dispatch c st) as [o st'] eqn:Hrun. cbn [snd].
    destruct (dispatch_cases c st st' o Hrun)
      as [[-> _]|(data & data' & loc & Hload & Hstep & _)]; [reflexivity|].
    destruct (Hno data data' Hload Hstep). }
  split.
  { intros Hm. apply (Hro (CallWishlist now req)).
    intros data data' _ Hstep. inversion Hstep. contradiction. }
  split; [apply (Hro CallPublicView); intros ? ? _ Hstep; inversion Hstep|].
  split; [reflexivity|]. split; [reflexivity|].
  intros index data Hout.
  assert (Hnr : forall d : list item, holds st d -> ~ in_range index d).
  { intros d Hd. unfold in_range. destruct Hout as [Hneg|[Hload Hge]]; [lia|].
    rewrite (holds_inj _ _ _ Hd Hload). lia. }
  split; [|split].
  - apply (Hro (CallDeleteItem index)).
    intros d d' Hd Hstep. inversion Hstep; subst. apply (Hnr d Hd). assumption.
  - apply (Hro (CallReserveItem index)).
    intros d d' Hd Hstep. inversion Hstep; subst. apply (Hnr d Hd). assumption.
  - apply (Hro (CallUnreserveItem index)).
    intros d d' Hd Hstep. inversion Hstep; subst. apply (Hnr d Hd). assumption.
Qed.

End MoreProofs.
(** * Concrete runs *)

#[local] Existing Instance document_codec.

Example py_strip_examples :
  py_strip "  http://img/k.png " = "http://img/k.png" /\
  py_strip (String (ascii_of_nat 9) (String (ascii_of_nat 160) "a b  ")) = "a b" /\
  py_strip "   " = "" /\
  str_or_None (py_strip " ") = JNull /\
  str_or_None (py_strip " x") = JStr "x".
Proof. repeat apply conj; vm_compute; reflexivity. Qed.

Example list_pop_examples :
  list_pop 1 [10; 20; 30] = Ok [10; 30] /\
  list_pop (-1) [10; 20; 30] = Ok [10; 20] /\
  list_pop 3 [10; 20; 30] = Raise IndexError /\
  list_pop (-4) [10; 20; 30] = Raise IndexError.
Proof. repeat apply conj; vm_compute; reflexivity. Qed.

Example delete_middle :
  delete_item 1 fs_three = (Ok (redirect "/"), <[FILE_PATH := Some [lamp; mug]]> fs_three) /\
  load_data (<[FILE_PATH := Some [lamp; mug]]> fs_three) = (Ok [lamp; mug], <[FILE_PATH := Some [lamp; mug]]> fs_three).
Proof. split; reflexivity. Qed.

Example reserve_socks :
  reserve_item 1 fs_three =
    (Ok (redirect "/public"),
     <[FILE_PATH := Some [lamp; <["purchased" := JBool true]> socks; mug]]> fs_three).
Proof. reflexivity. Qed.

Example reserve_socks_item :
  <["purchased" := JBool true]> socks = list_to_map [("name", JStr "Socks"); ("purchased", JBool true)].
Proof. reflexivity. Qed.

Example add_kite :
  wishlist "2024-12-24T18:00:00" kite_request fs_none =
    (Ok (redirect "/"),
     <[FILE_PATH := Some [new_item "Kite" "http://k" "red" (JStr "http://img/k.png") "2024-12-24T18:00:00"]]> fs_none).
Proof. reflexivity. Qed.

Example kite_item : new_item "Kite" "http://k" "red" (JStr "http://img/k.png") "T" =
 list_to_map [("name", JStr "Kite"); ("link", JStr "http://k");
                        ("notes", JStr "red"); ("image", JStr "http://img/k.png");
                        ("purchased", JBool false);
                        ("created_at", JStr "T")].
Proof. reflexivity. Qed.

Example owner_view_three :
  wishlist "" get_request fs_three =
    (Ok (render_template "wishlist.html"
       [ {| v_index := 0; v_name := JStr "Lamp"; v_brand := JStr "";
            v_link := JStr "http://shop/lamp"; v_notes := JStr "blue";
            v_image := JStr "http://img/lamp.png"; v_purchased := JBool false |};
         {| v_index := 1; v_name := JStr "Socks"; v_brand := JStr "";
            v_link := JStr ""; v_notes := JStr ""; v_image := JNull;
            v_purchased := JBool false |};
         {| v_index := 2; v_name := JStr "Mug"; v_brand := JStr "";
            v_link := JStr ""; v_notes := JStr ""; v_image := JNull;
            v_purchased := JBool true |} ]),
     fs_three).
Proof. reflexivity. Qed.

Example garbage_file_raises :
  wishlist "" get_request fs_garbage = (Raise JSONDecodeError, fs_garbage) /\
  wishlist "" kite_request fs_garbage = (Raise JSONDecodeError, fs_garbage) /\
  public_view fs_garbage = (Raise JSONDecodeError, fs_garbage) /\
  delete_item 0 fs_garbage = (Raise JSONDecodeError, fs_garbage) /\
  reserve_item 0 fs_garbage = (Raise JSONDecodeError, fs_garbage) /\
  unreserve_item 0 fs_garbage = (Raise JSONDecodeError, fs_garbage).
Proof. repeat apply conj; reflexivity. Qed.

Example post_without_name_raises :
  wishlist "" {| method := POST; form := {[ "link" := "http://k" ]} |} fs_three
  = (Raise (BadRequestKeyError "name"), fs_three).
Proof. reflexivity. Qed.

(** ** The theorems at concrete inputs *)

Lemma holds_three : holds fs_three three_items.
Proof. reflexivity. Defined.

Lemma holds_none : holds fs_none [].
Proof. reflexivity. Defined.

Lemma in_range_1_three : in_range 1 three_items.
Proof. unfold in_range, three_items. cbn [length]. lia. Defined.

Lemma add_appends_item_witness :
  holds fs_three three_items /\
  method kite_request = POST /\
  form kite_request !! "name" = Some "Kite" /\
  form kite_request !! "link" = Some "http://k" /\
  form kite_request !! "notes" = Some "red" /\
  exists (st' : gmap string (option (list item))) (it : item),
    wishlist "2024-12-24T18:00:00" kite_request fs_three = (Ok (redirect "/"), st') /\
    load_data st' = (Ok (three_items ++ [it]), st') /\
    it !! "name" = Some (JStr "Kite") /\
    it !! "link" = Some (JStr "http://k") /\
    it !! "notes" = Some (JStr "red") /\
    it !! "purchased" = Some (JBool false) /\
    it !! "created_at" = Some (JStr "2024-12-24T18:00:00").
Proof.
  repeat apply conj; try reflexivity.
  apply (@add_appends_item document_codec fs_three three_items "2024-12-24T18:00:00"
           kite_request "Kite" "http://k" "red"); reflexivity.
Defined.

Lemma delete_item_spec_witness :
  holds fs_three three_items /\
  exists (st' : gmap string (option (list item))) (data' : list item),
    delete_item 1 fs_three = (Ok (redirect "/"), st') /\
    holds st' data' /\
    (in_range 1 three_items ->
       S (length data') = length three_items /\
       (forall j : nat, (j < Z.to_nat 1)%nat -> data' !! j = three_items !! j) /\
       (forall j : nat, (Z.to_nat 1 <= j)%nat -> data' !! j = three_items !! S j)) /\
    (~ in_range 1 three_items -> st' = fs_three /\ data' = three_items).
Proof.
  split; [exact holds_three|].
  exact (@delete_item_spec document_codec fs_three three_items 1 holds_three).
Defined.

Lemma set_purchased_spec_witness :
  holds fs_three three_items /\
  (in_range 1 three_items ->
     (exists (st' : gmap string (option (list item))) (data' : list item),
        reserve_item 1 fs_three = (Ok (redirect "/public"), st') /\
        holds st' data' /\
        purchased_at (Z.to_nat 1) data' = Some (JBool true)) /\
     (exists (st' : gmap string (option (list item))) (data' : list item),
        unreserve_item 1 fs_three = (Ok (redirect "/public"), st') /\
        holds st' data' /\
        purchased_at (Z.to_nat 1) data' = Some (JBool false))) /\
  (~ in_range 1 three_items ->
     delete_item 1 fs_three = (Ok (redirect "/"), fs_three) /\
     reserve_item 1 fs_three = (Ok (redirect "/public"), fs_three) /\
     unreserve_item 1 fs_three = (Ok (redirect "/public"), fs_three)).
Proof.
  split; [exact holds_three|].
  exact (@set_purchased_spec document_codec fs_three three_items 1 holds_three).
Defined.

Lemma reserve_unreserve_idempotent_witness :
  holds fs_three three_items /\ in_range 1 three_items /\
  exists (st1 st2 : gmap string (option (list item))) (d1 d2 : list item),
    reserve_item 1 fs_three = (Ok (redirect "/public"), st1) /\
    holds st1 d1 /\
    purchased_at (Z.to_nat 1) d1 = Some (JBool true) /\
    unreserve_item 1 st1 = (Ok (redirect "/public"), st2) /\
    holds st2 d2 /\
    purchased_at (Z.to_nat 1) d2 = Some (JBool false) /\
    reserve_item 1 st1 = (Ok (redirect "/public"), st1).
Proof.
  split; [exact holds_three|]. split; [exact in_range_1_three|].
  exact (@reserve_unreserve_idempotent document_codec fs_three three_items 1
           holds_three in_range_1_three).
Defined.

Lemma absent_file_is_empty_list_witness :
  fs_none !! FILE_PATH = None /\
  load_data fs_none = (Ok [], fs_none) /\
  wishlist "" get_request fs_none = (Ok (render_template "wishlist.html" []), fs_none) /\
  public_view fs_none = (Ok (render_template "public_list.html" []), fs_none) /\
  delete_item 0 fs_none = (Ok (redirect "/"), fs_none) /\
  reserve_item 0 fs_none = (Ok (redirect "/public"), fs_none) /\
  unreserve_item 0 fs_none = (Ok (redirect "/public"), fs_none).
Proof.
  assert (Hnone : fs_none !! FILE_PATH = None) by reflexivity.
  destruct (@absent_file_is_empty_list document_codec fs_none "" get_request Hnone)
    as (Hload & Hget & _ & Hpub & Hidx & _).
  destruct (Hidx 0) as (Hd & Hr & Hu).
  split; [exact Hnone|]. split; [exact Hload|].
  split; [apply Hget; discriminate|].
  split; [exact Hpub|]. split; [exact Hd|]. split; [exact Hr|exact Hu].
Defined.

Lemma book_scenario_witness :
  holds fs_none [] /\
  exists st1 st2 st3 : gmap string (option (list item)),
    wishlist "2024-12-24T18:00:00" book_request fs_none = (Ok (redirect "/"), st1) /\
    load_data st1 = (Ok [book_item false "2024-12-24T18:00:00"], st1) /\
    book_item false "2024-12-24T18:00:00" !! "image" = Some JNull /\
    book_item false "2024-12-24T18:00:00" !! "image" <> Some (JStr "") /\
    book_item false "2024-12-24T18:00:00" !! "purchased" = Some (JBool false) /\
    reserve_item 0 st1 = (Ok (redirect "/public"), st2) /\
    load_data st2 = (Ok [book_item true "2024-12-24T18:00:00"], st2) /\
    delete_item 0 st2 = (Ok (redirect "/"), st3) /\
    load_data st3 = (Ok [], st3).
Proof.
  split; [exact holds_none|].
  exact (@book_scenario document_codec fs_none "2024-12-24T18:00:00" holds_none).
Defined.

Lemma set_purchased_frame_witness :
  holds fs_three three_items /\ in_range 1 three_items /\
  (exists (st' : gmap string (option (list item))) (data' : list item),
     reserve_item 1 fs_three = (Ok (redirect "/public"), st') /\
     holds st' data' /\
     only_purchased_differs (Z.to_nat 1) three_items data' /\
     (forall path : string, path <> FILE_PATH -> st' !! path = fs_three !! path)) /\
  (exists (st' : gmap string (option (list item))) (data' : list item),
     unreserve_item 1 fs_three = (Ok (redirect "/public"), st') /\
     holds st' data' /\
     only_purchased_differs (Z.to_nat 1) three_items data' /\
     (forall path : string, path <> FILE_PATH -> st' !! path = fs_three !! path)).
Proof.
  split; [exact holds_three|]. split; [exact in_range_1_three|].
  exact (@set_purchased_frame document_codec fs_three three_items 1 holds_three in_range_1_three).
Defined.

Lemma insertion_order_preserved_witness :
  holds fs_three three_items /\
  (exists (st' : gmap string (option (list item))) (it : item),
     wishlist "2024-12-24T18:00:00" kite_request fs_three = (Ok (redirect "/"), st') /\
     load_data st' = (Ok (three_items ++ [it]), st')) /\
  (exists (st' : gmap string (option (list item))) (data' : list item),
     delete_item 1 fs_three = (Ok (redirect "/"), st') /\
     load_data st' = (Ok data', st') /\
     sublist data' three_items /\
     (in_range 1 three_items ->
        data' = take (Z.to_nat 1) three_items ++ drop (S (Z.to_nat 1)) three_items)) /\
  (exists (st' : gmap string (option (list item))) (data' : list item),
     reserve_item 1 fs_three = (Ok (redirect "/public"), st') /\
     load_data st' = (Ok data', st') /\
     erase_purchased data' = erase_purchased three_items) /\
  (exists (st' : gmap string (option (list item))) (data' : list item),
     unreserve_item 1 fs_three = (Ok (redirect "/public"), st') /\
     load_data st' = (Ok data', st') /\
     erase_purchased data' = erase_purchased three_items).
Proof.
  destruct (@insertion_order_preserved document_codec fs_three three_items holds_three)
    as (Hadd & Hdel & Hres).
  split; [exact holds_three|].
  split.
  { apply (Hadd "2024-12-24T18:00:00" kite_request "Kite" "http://k" "red");
      reflexivity. }
  split; [exact (Hdel 1)|]. exact (Hres 1).
Defined.

Lemma views_total_witness :
  holds fs_three three_items /\ method get_request <> POST /\
  exists items : list view_item,
    wishlist "" get_request fs_three = (Ok (render_template "wishlist.html" items), fs_three) /\
    public_view fs_three = (Ok (render_template "public_list.html" items), fs_three) /\
    length items = length three_items /\
    (forall (idx : nat) (it : item),
       three_items !! idx = Some it ->
       exists v : view_item,
         items !! idx = Some v /\
         v_index v = Z.of_nat idx /\
         v_name v = default (JStr "-") (it !! "name") /\
         v_brand v = default (JStr "") (it !! "brand") /\
         v_link v = default (JStr "") (it !! "link") /\
         v_notes v = default (JStr "") (it !! "notes") /\
         v_image v = default JNull (it !! "image") /\
         v_purchased v = default (JBool false) (it !! "purchased") /\
         (it = empty -> v = default_view idx)) /\
    (reachable fs_three -> Forall (fun v : view_item => v_brand v = JStr "") items).
Proof.
  assert (Hm : method get_request <> POST) by discriminate.
  split; [exact holds_three|]. split; [exact Hm|].
  exact (@views_total document_codec fs_three three_items "" get_request holds_three Hm).
Defined.

(** ** The further properties at concrete inputs *)

Lemma reachable_fs_kite : reachable fs_kite.
Proof.
  apply (@reach_call document_codec fs_none fs_kite
           (CallWishlist "2024-12-24T18:00:00" kite_request) (Ok (redirect "/"))).
  - apply (@reach_start document_codec). reflexivity.
  - reflexivity.
Defined.

Lemma undecodable_file_raises_witness :
  (fs_garbage !! FILE_PATH = Some None) /\
  (json_load None = None) /\
  (wishlist "" kite_request fs_garbage = (Raise JSONDecodeError, fs_garbage) /\
  public_view fs_garbage = (Raise JSONDecodeError, fs_garbage) /\
  delete_item 0 fs_garbage = (Raise JSONDecodeError, fs_garbage) /\
  reserve_item 0 fs_garbage = (Raise JSONDecodeError, fs_garbage) /\
  unreserve_item 0 fs_garbage = (Raise JSONDecodeError, fs_garbage) /\
  wishlist_page fs_garbage = (Ok (redirect "/"), fs_garbage) /\
  add_page fs_garbage = (Ok (redirect "/"), fs_garbage)).
Proof.
  assert (H1 : fs_garbage !! FILE_PATH = Some None)
    by (reflexivity).
  assert (H2 : json_load None = None)
    by (reflexivity).
  split; [exact H1|].
  split; [exact H2|].
  exact (@undecodable_file_raises document_codec fs_garbage None "" kite_request 0 H1 H2).
Defined.

Lemma post_missing_field_witness :
  (holds fs_three three_items) /\
  (method nameless_request = POST) /\
  ((form nameless_request !! "name" = None ->
     wishlist "2024-12-24T18:00:00" nameless_request fs_three = (Raise (BadRequestKeyError "name"), fs_three)) /\
  (is_Some (form nameless_request !! "name") -> form nameless_request !! "link" = None ->
     wishlist "2024-12-24T18:00:00" nameless_request fs_three = (Raise (BadRequestKeyError "link"), fs_three)) /\
  (is_Some (form nameless_request !! "name") -> is_Some (form nameless_request !! "link") ->
   form nameless_request !! "notes" = None ->
     wishlist "2024-12-24T18:00:00" nameless_request fs_three = (Raise (BadRequestKeyError "notes"), fs_three)) /\
  (is_Some (form nameless_request !! "name") -> is_Some (form nameless_request !! "link") ->
   is_Some (form nameless_request !! "notes") -> form nameless_request !! "image_url" = None ->
     exists st' : gmap string text, wishlist "2024-12-24T18:00:00" nameless_request fs_three = (Ok (redirect "/"), st'))).
Proof.
  assert (H1 : holds fs_three three_items)
    by (reflexivity).
  assert (H2 : method nameless_request = POST)
    by (reflexivity).
  split; [exact H1|].
  split; [exact H2|].
  exact (@post_missing_field document_codec fs_three three_items "2024-12-24T18:00:00" nameless_request H1 H2).
Defined.


Lemma store_stays_loadable_witness :
  (holds fs_three three_items) /\
  (exists data' : list item,
    holds (dispatch (CallDeleteItem 1) fs_three).2 data' /\
    (length data' = length three_items \/
     length data' = S (length three_items) \/
     S (length data') = length three_items)).
Proof.
  assert (H1 : holds fs_three three_items)
    by (reflexivity).
  split; [exact H1|].
  exact (@store_stays_loadable document_codec (CallDeleteItem 1) fs_three three_items H1).
Defined.

Lemma reachable_items_well_formed_witness :
  (reachable fs_kite) /\
  (exists data : list item,
    load_data fs_kite = (Ok data, fs_kite) /\
    Forall app_item data /\
    forall (idx : nat) (it : item),
      data !! idx = Some it ->
      it !! "name" = Some (v_name (view_of idx it)) /\
      it !! "link" = Some (v_link (view_of idx it)) /\
      it !! "notes" = Some (v_notes (view_of idx it)) /\
      it !! "image" = Some (v_image (view_of idx it)) /\
      it !! "purchased" = Some (v_purchased (view_of idx it)) /\
      it !! "brand" = None).
Proof.
  assert (H1 : reachable fs_kite)
    by (exact reachable_fs_kite).
  split; [exact H1|].
  exact (@reachable_items_well_formed document_codec fs_kite H1).
Defined.

Lemma reachable_never_decode_error_witness :
  (reachable fs_kite) /\
  ((dispatch (CallWishlist "" nameless_request) fs_kite).1 = Raise (BadRequestKeyError "name")) /\
  (exists k : string, In k ["name"; "link"; "notes"] /\ (BadRequestKeyError "name") = BadRequestKeyError k).
Proof.
  assert (H1 : reachable fs_kite)
    by (exact reachable_fs_kite).
  assert (H2 : (dispatch (CallWishlist "" nameless_request) fs_kite).1 = Raise (BadRequestKeyError "name"))
    by (reflexivity).
  split; [exact H1|].
  split; [exact H2|].
  exact (@reachable_never_decode_error document_codec fs_kite (CallWishlist "" nameless_request) (BadRequestKeyError "name") H1 H2).
Defined.


Lemma add_then_delete_last_witness :
  (holds fs_three three_items) /\
  (method kite_request = POST) /\
  (form kite_request !! "name" = Some "Kite") /\
  (form kite_request !! "link" = Some "http://k") /\
  (form kite_request !! "notes" = Some "red") /\
  (exists st1 st2 : gmap string text,
    wishlist "2024-12-24T18:00:00" kite_request fs_three = (Ok (redirect "/"), st1) /\
    delete_item (Z.of_nat (length three_items)) st1 = (Ok (redirect "/"), st2) /\
    load_data st2 = (Ok three_items, st2)).
Proof.
  assert (H1 : holds fs_three three_items)
    by (reflexivity).
  assert (H2 : method kite_request = POST)
    by (reflexivity).
  assert (H3 : form kite_request !! "name" = Some "Kite")
    by (reflexivity).
  assert (H4 : form kite_request !! "link" = Some "http://k")
    by (reflexivity).
  assert (H5 : form kite_request !! "notes" = Some "red")
    by (reflexivity).
  split; [exact H1|].
  split; [exact H2|].
  split; [exact H3|].
  split; [exact H4|].
  split; [exact H5|].
  exact (@add_then_delete_last document_codec fs_three three_items "2024-12-24T18:00:00" kite_request "Kite" "http://k" "red" H1 H2 H3 H4 H5).
Defined.

Lemma set_purchased_commute_witness :
  (holds fs_three three_items) /\
  (0 <> 2) /\
  ((reserve_item 2 (reserve_item 0 fs_three).2).2 =
    (reserve_item 0 (reserve_item 2 fs_three).2).2 /\
  (unreserve_item 2 (reserve_item 0 fs_three).2).2 =
    (reserve_item 0 (unreserve_item 2 fs_three).2).2 /\
  (unreserve_item 2 (unreserve_item 0 fs_three).2).2 =
    (unreserve_item 0 (unreserve_item 2 fs_three).2).2).
Proof.
  assert (H1 : holds fs_three three_items)
    by (reflexivity).
  assert (H2 : 0 <> 2)
    by (discriminate).
  split; [exact H1|].
  split; [exact H2|].
  exact (@set_purchased_commute document_codec fs_three three_items 0 2 H1 H2).
Defined.

Lemma last_flag_wins_witness :
  (holds fs_three three_items) /\
  ((reserve_item 1 (unreserve_item 1 fs_three).2).2 = (reserve_item 1 fs_three).2 /\
  (unreserve_item 1 (reserve_item 1 fs_three).2).2 = (unreserve_item 1 fs_three).2 /\
  (unreserve_item 1 (unreserve_item 1 fs_three).2).2 = (unreserve_item 1 fs_three).2 /\
  (reserve_item 1 (reserve_item 1 fs_three).2).2 = (reserve_item 1 fs_three).2).
Proof.
  assert (H1 : holds fs_three three_items)
    by (reflexivity).
  split; [exact H1|].
  exact (@last_flag_wins document_codec fs_three three_items 1 H1).
Defined.

Lemma reserve_unreserve_restores_witness :
  (holds fs_three three_items) /\
  (in_range 1 three_items) /\
  (three_items !! Z.to_nat 1 = Some socks) /\
  (exists (st1 st2 : gmap string text) (d2 : list item),
    reserve_item 1 fs_three = (Ok (redirect "/public"), st1) /\
    unreserve_item 1 st1 = (Ok (redirect "/public"), st2) /\
    load_data st2 = (Ok d2, st2) /\
    (d2 = three_items <-> socks !! "purchased" = Some (JBool false))).
Proof.
  assert (H1 : holds fs_three three_items)
    by (reflexivity).
  assert (H2 : in_range 1 three_items)
    by (unfold in_range, three_items; cbn [length]; lia).
  assert (H3 : three_items !! Z.to_nat 1 = Some socks)
    by (reflexivity).
  split; [exact H1|].
  split; [exact H2|].
  split; [exact H3|].
  exact (@reserve_unreserve_restores document_codec fs_three three_items 1 socks H1 H2 H3).
Defined.

Lemma delete_shifts_identity_witness :
  (holds fs_three three_items) /\
  (in_range 1 three_items) /\
  (exists st1 : gmap string text,
    delete_item 1 fs_three = (Ok (redirect "/"), st1) /\
    (forall next : item,
       three_items !! S (Z.to_nat 1) = Some next ->
       exists (st2 : gmap string text) (d2 : list item),
         reserve_item 1 st1 = (Ok (redirect "/public"), st2) /\
         load_data st2 = (Ok d2, st2) /\
         d2 !! Z.to_nat 1 = Some (<["purchased" := JBool true]> next) /\
         (forall j : nat, (j < Z.to_nat 1)%nat -> d2 !! j = three_items !! j)) /\
    (three_items !! S (Z.to_nat 1) = None ->
       reserve_item 1 st1 = (Ok (redirect "/public"), st1))).
Proof.
  assert (H1 : holds fs_three three_items)
    by (reflexivity).
  assert (H2 : in_range 1 three_items)
    by (unfold in_range, three_items; cbn [length]; lia).
  split; [exact H1|].
  split; [exact H2|].
  exact (@delete_shifts_identity document_codec fs_three three_items 1 H1 H2).
Defined.

Lemma view_index_addresses_item_witness :
  (holds fs_three three_items) /\
  (method get_request <> POST) /\
  (exists items : list view_item,
    wishlist "" get_request fs_three = (Ok (render_template "wishlist.html" items), fs_three) /\
    public_view fs_three = (Ok (render_template "public_list.html" items), fs_three) /\
    forall (j : nat) (v : view_item),
      items !! j = Some v ->
      exists it : item,
        three_items !! j = Some it /\
        v = view_of j it /\
        v_index v = Z.of_nat j /\
        in_range (v_index v) three_items /\
        (exists st' : gmap string text,
           delete_item (v_index v) fs_three = (Ok (redirect "/"), st') /\
           load_data st' = (Ok (take j three_items ++ drop (S j) three_items), st')) /\
        (exists (st' : gmap string text) (data' : list item),
           reserve_item (v_index v) fs_three = (Ok (redirect "/public"), st') /\
           load_data st' = (Ok data', st') /\
           data' !! j = Some (<["purchased" := JBool true]> it) /\
           forall k : nat, k <> j -> data' !! k = three_items !! k)).
Proof.
  assert (H1 : holds fs_three three_items)
    by (reflexivity).
  assert (H2 : method get_request <> POST)
    by (discriminate).
  split; [exact H1|].
  split; [exact H2|].
  exact (@view_index_addresses_item document_codec fs_three three_items "" get_request H1 H2).
Defined.

Lemma view_after_set_purchased_witness :
  (holds fs_three three_items) /\
  (in_range 1 three_items) /\
  (exists (items : list view_item) (st1 st2 : gmap string text),
    public_view fs_three = (Ok (render_template "public_list.html" items), fs_three) /\
    reserve_item 1 fs_three = (Ok (redirect "/public"), st1) /\
    public_view st1 =
      (Ok (render_template "public_list.html"
             (alter (set_v_purchased (JBool true)) (Z.to_nat 1) items)), st1) /\
    unreserve_item 1 fs_three = (Ok (redirect "/public"), st2) /\
    public_view st2 =
      (Ok (render_template "public_list.html"
             (alter (set_v_purchased (JBool false)) (Z.to_nat 1) items)), st2)).
Proof.
  assert (H1 : holds fs_three three_items)
    by (reflexivity).
  assert (H2 : in_range 1 three_items)
    by (unfold in_range, three_items; cbn [length]; lia).
  split; [exact H1|].
  split; [exact H2|].
  exact (@view_after_set_purchased document_codec fs_three three_items 1 H1 H2).
Defined.

Lemma view_after_add_witness :
  (holds fs_three three_items) /\
  (method kite_request = POST) /\
  (form kite_request !! "name" = Some "Kite") /\
  (form kite_request !! "link" = Some "http://k") /\
  (form kite_request !! "notes" = Some "red") /\
  (method get_request <> POST) /\
  (exists (items : list view_item) (st1 : gmap string text) (v : view_item),
    wishlist "2024-12-24T18:00:00" get_request fs_three = (Ok (render_template "wishlist.html" items), fs_three) /\
    wishlist "2024-12-24T18:00:00" kite_request fs_three = (Ok (redirect "/"), st1) /\
    wishlist "2024-12-24T18:00:00" get_request st1 = (Ok (render_template "wishlist.html" (items ++ [v])), st1) /\
    v_index v = Z.of_nat (length three_items) /\
    v_name v = JStr "Kite" /\ v_link v = JStr "http://k" /\ v_notes v = JStr "red" /\
    v_brand v = JStr "" /\ v_purchased v = JBool false).
Proof.
  assert (H1 : holds fs_three three_items)
    by (reflexivity).
  assert (H2 : method kite_request = POST)
    by (reflexivity).
  assert (H3 : form kite_request !! "name" = Some "Kite")
    by (reflexivity).
  assert (H4 : form kite_request !! "link" = Some "http://k")
    by (reflexivity).
  assert (H5 : form kite_request !! "notes" = Some "red")
    by (reflexivity).
  assert (H6 : method get_request <> POST)
    by (discriminate).
  split; [exact H1|].
  split; [exact H2|].
  split; [exact H3|].
  split; [exact H4|].
  split; [exact H5|].
  split; [exact H6|].
  exact (@view_after_add document_codec fs_three three_items "2024-12-24T18:00:00" kite_request get_request "Kite" "http://k" "red" H1 H2 H3 H4 H5 H6).
Defined.

Lemma add_twice_stores_both_witness :
  (holds fs_three three_items) /\
  (method kite_request = POST) /\
  (form kite_request !! "name" = Some "Kite") /\
  (form kite_request !! "link" = Some "http://k") /\
  (form kite_request !! "notes" = Some "red") /\
  (exists (st1 st2 : gmap string text) (it1 it2 : item),
    wishlist "2024-12-24T18:00:00" kite_request fs_three = (Ok (redirect "/"), st1) /\
    wishlist "2024-12-25T09:00:00" kite_request st1 = (Ok (redirect "/"), st2) /\
    load_data st2 = (Ok (three_items ++ [it1; it2]), st2) /\
    (forall k : string, k <> "created_at" -> it1 !! k = it2 !! k) /\
    ("2024-12-24T18:00:00" = "2024-12-25T09:00:00" -> it1 = it2)).
Proof.
  assert (H1 : holds fs_three three_items)
    by (reflexivity).
  assert (H2 : method kite_request = POST)
    by (reflexivity).
  assert (H3 : form kite_request !! "name" = Some "Kite")
    by (reflexivity).
  assert (H4 : form kite_request !! "link" = Some "http://k")
    by (reflexivity).
  assert (H5 : form kite_request !! "notes" = Some "red")
    by (reflexivity).
  split; [exact H1|].
  split; [exact H2|].
  split; [exact H3|].
  split; [exact H4|].
  split; [exact H5|].
  exact (@add_twice_stores_both document_codec fs_three three_items "2024-12-24T18:00:00" "2024-12-25T09:00:00" kite_request "Kite" "http://k" "red" H1 H2 H3 H4 H5).
Defined.

Lemma delete_order_witness :
  (holds fs_three three_items) /\
  (in_range 0 three_items) /\
  (in_range 2 three_items) /\
  (0 < 2) /\
  ((delete_item 0 (delete_item 2 fs_three).2).2 =
  (delete_item (2 - 1) (delete_item 0 fs_three).2).2).
Proof.
  assert (H1 : holds fs_three three_items)
    by (reflexivity).
  assert (H2 : in_range 0 three_items)
    by (unfold in_range, three_items; cbn [length]; lia).
  assert (H3 : in_range 2 three_items)
    by (unfold in_range, three_items; cbn [length]; lia).
  assert (H4 : 0 < 2)
    by (reflexivity).
  split; [exact H1|].
  split; [exact H2|].
  split; [exact H3|].
  split; [exact H4|].
  exact (@delete_order document_codec fs_three three_items 0 2 H1 H2 H3 H4).
Defined.

